(** * Authenticated inference and persistence service

    A shallow embedding of [backend/database.py] and [backend/app.py]:
    the pooled, transactional database access, the user registry, the
    bearer tokens, the prediction store and the three inference handlers.

    Conventions of the embedding.
    - Python exceptions are values of [exn]; a call that can raise returns
      a [Result].
    - The module global [connection_pool], the MySQL server, the wall clock
      and the operating system's random source are fields of [World]; every
      function of the service threads a [World].
    - Python floats and MySQL [DECIMAL] values are modelled by the rational
      numbers they denote ([Q], compared with [==]).
    - The collaborators whose code is not part of the repository (the
      pickled scorer, bcrypt's digest, the HMAC of PyJWT, the collation of
      the tables, the random source) are the fields of [Collaborators].
    - The MySQL server runs in strict SQL mode: a value that does not fit
      its column is refused, not clipped.
    - One request runs at a time; the clock does not advance during it. *)

From Stdlib Require Import ZArith QArith Qabs Bool List String Ascii Lia.
From Stdlib Require Import Permutation Sorted.
Import ListNotations.

Local Open Scope string_scope.
Local Open Scope list_scope.
Local Open Scope Z_scope.

(** ** Exceptions and results *)

Inductive exn : Type :=
| HTTPException (status_code : Z) (detail : string)
| AttributeError (msg : string)
| ValueError (msg : string)
| PoolError (msg : string)
| IntegrityError (msg : string)
| DataError (msg : string)
| TypeError (msg : string)
| ProgrammingError (msg : string).

Inductive Result (A : Type) : Type :=
| Ok (a : A)
| Raise (e : exn).

Arguments Ok {A} a.
Arguments Raise {A} e.

(** ** Rows of the two tables *)

(** The eleven scored fields of a loan application, [name] excluded. *)
Record Features : Type := mkFeatures {
  annual_income : Q;
  debt_to_income_ratio : Q;
  credit_score : Q;
  loan_amount : Q;
  interest_rate : Q;
  gender : string;
  marital_status : string;
  education_level : string;
  employment_status : string;
  loan_purpose : string;
  grade_subgrade : string
}.

(** The [name] of a row as the handlers hold it: text, or the NaN that
    pandas puts in an empty cell. *)
Inductive NameCell : Type :=
| Text (s : string)
| NaN.

(** A row of [users]. *)
Record User : Type := mkUser {
  u_id : Z;
  username : string;
  email : string;
  hashed_password : string;
  u_created_at : Z
}.

(** A row of [predictions]; [p_name] and [batch_id] are nullable. *)
Record Prediction : Type := mkPrediction {
  p_id : Z;
  user_id : Z;
  p_name : option string;
  p_features : Features;
  prediction : Z;
  probability : Q;
  prediction_type : string;
  batch_id : option string;
  created_at : Z
}.

(** The MySQL database: the two tables in insertion order and their
    AUTO_INCREMENT counters. *)
Record Database : Type := mkDatabase {
  users : list User;
  predictions : list Prediction;
  users_auto_increment : Z;
  predictions_auto_increment : Z
}.

(** ** The connection pool and the world *)

Record Pool : Type := mkPool {
  pool_size : nat;
  checked_out : nat
}.

(** What a connection of the pool is asked to do, in order. *)
Inductive event : Type :=
| EvInitPool (created : bool)
| EvGetConnection
| EvCursor
| EvCommit
| EvRollback
| EvCursorClose
| EvConnClose.

Record World : Type := mkWorld {
  connection_pool : option Pool;   (* the module global, None until created *)
  server_up : bool;                (* does MySQLConnectionPool(...) succeed? *)
  db : Database;                   (* the committed state of the server *)
  clock : Z;                       (* seconds since the epoch, UTC *)
  draws : nat;                     (* values already taken from the random source *)
  trace : list event               (* history of the connections *)
}.

Definition set_pool (w : World) (p : option Pool) : World :=
  mkWorld p (server_up w) (db w) (clock w) (draws w) (trace w).

Definition set_db (w : World) (d : Database) : World :=
  mkWorld (connection_pool w) (server_up w) d (clock w) (draws w) (trace w).

Definition set_draws (w : World) (n : nat) : World :=
  mkWorld (connection_pool w) (server_up w) (db w) (clock w) n (trace w).

Definition emit (w : World) (evs : list event) : World :=
  mkWorld (connection_pool w) (server_up w) (db w) (clock w) (draws w)
          (trace w ++ evs).

(** [init_connection_pool]: creates the pool of five connections; a
    [mysql.connector.Error] is caught and printed, and the global is left
    as it was. *)
Definition init_connection_pool (w : World) : World :=
  if server_up w
  then emit (set_pool w (Some (mkPool 5 0))) [EvInitPool true]
  else emit w [EvInitPool false].

(** ** Cursors: what runs between [yield cursor] and the end of the [with]
    block.  A body sees the server's clock and the transaction's working
    copy of the database. *)

Definition Cursor (A : Type) : Type := Z -> Database -> Result A * Database.

Definition cret {A} (a : A) : Cursor A := fun _ d => (Ok a, d).

Definition cbind {A B} (m : Cursor A) (k : A -> Cursor B) : Cursor B :=
  fun now d =>
    match m now d with
    | (Ok a, d') => k a now d'
    | (Raise e, d') => (Raise e, d')
    end.

Definition craise {A} (e : exn) : Cursor A := fun _ d => (Raise e, d).

Declare Scope cursor_scope.
Delimit Scope cursor_scope with cursor.
Notation "x <- m ;; k" := (cbind m (fun x => k))
  (at level 61, m at next level, right associativity) : cursor_scope.

(** [conn.rollback()]: the tables return to the committed state; InnoDB
    does not give back the AUTO_INCREMENT values the transaction used. *)
Definition rollback (committed working : Database) : Database :=
  mkDatabase (users committed) (predictions committed)
             (users_auto_increment working)
             (predictions_auto_increment working).

Definition release (p : Pool) : Pool :=
  mkPool (pool_size p) (Nat.pred (checked_out p)).

Definition acquire (p : Pool) : Pool :=
  mkPool (pool_size p) (S (checked_out p)).

(** The first two lines of [get_db]: the pool is created on first use. *)
Definition ensure_pool (w : World) : World :=
  match connection_pool w with
  | None => init_connection_pool w
  | Some _ => w
  end.

(** [get_db], as a scope around [body]. *)
Definition get_db {A} (body : Cursor A) (w : World) : Result A * World :=
  let w1 := ensure_pool w in
  match connection_pool w1 with
  | None =>
      (Raise (AttributeError
                "'NoneType' object has no attribute 'get_connection'"), w1)
  | Some p =>
      if (checked_out p <? pool_size p)%nat then
        let w2 := emit (set_pool w1 (Some (acquire p)))
                       [EvGetConnection; EvCursor] in
        match body (clock w2) (db w2) with
        | (Ok a, d') =>
            let w3 := emit (set_db w2 d') [EvCommit] in
            (Ok a,
             emit (set_pool w3 (Some (release (acquire p))))
                  [EvCursorClose; EvConnClose])
        | (Raise e, d') =>
            let w3 := emit (set_db w2 (rollback (db w2) d')) [EvRollback] in
            (Raise e,
             emit (set_pool w3 (Some (release (acquire p))))
                  [EvCursorClose; EvConnClose])
        end
      else
        (Raise (PoolError "Failed getting connection; pool exhausted"), w1)
  end.

(** ** Service calls: functions of the application that thread the world *)

Definition Svc (A : Type) : Type := World -> Result A * World.

Definition sret {A} (a : A) : Svc A := fun w => (Ok a, w).

Definition sraise {A} (e : exn) : Svc A := fun w => (Raise e, w).

Definition sbind {A B} (m : Svc A) (k : A -> Svc B) : Svc B :=
  fun w =>
    match m w with
    | (Ok a, w') => k a w'
    | (Raise e, w') => (Raise e, w')
    end.

Declare Scope svc_scope.
Delimit Scope svc_scope with svc.
Notation "x <- m ;; k" := (sbind m (fun x => k))
  (at level 61, m at next level, right associativity) : svc_scope.

(** ** Column types of the schema in [init_db] *)

(** Rounding of an exact value to an integer, half away from zero. *)
Definition round_half_away (q : Q) : Z :=
  let n := Qnum q in
  let d := Zpos (Qden q) in
  Z.sgn n * ((2 * Z.abs n + d) / (2 * d)).

(** [DECIMAL(p, s)]: the value is rounded to [s] decimals; a value that
    needs more than [p] digits is refused (strict SQL mode). *)
Definition store_decimal (p s : Z) (q : Q) : Result Q :=
  let u := round_half_away (q * inject_Z (10 ^ s)) in
  if Z.abs u <? 10 ^ p
  then Ok (Qmake u (Z.to_pos (10 ^ s)))
  else Raise (DataError "Out of range value for column").

(** [VARCHAR(n)]. *)
Definition store_varchar (n : nat) (s : string) : Result string :=
  if (String.length s <=? n)%nat
  then Ok s
  else Raise (DataError "Data too long for column").

Definition store_varchar_null (n : nat) (s : option string)
  : Result (option string) :=
  match s with
  | None => Ok None
  | Some t => match store_varchar n t with
              | Ok t' => Ok (Some t')
              | Raise e => Raise e
              end
  end.

(** [TINYINT]. *)
Definition store_tinyint (z : Z) : Result Z :=
  if (-128 <=? z) && (z <=? 127)
  then Ok z
  else Raise (DataError "Out of range value for column").

Definition rbind {A B} (r : Result A) (k : A -> Result B) : Result B :=
  match r with
  | Ok a => k a
  | Raise e => Raise e
  end.

Declare Scope result_scope.
Delimit Scope result_scope with result.
Notation "x <- m ;; k" := (rbind m (fun x => k))
  (at level 61, m at next level, right associativity) : result_scope.

(** The eleven feature columns of [predictions]. *)
Definition store_features (f : Features) : Result Features :=
  (a <- store_decimal 15 2 (annual_income f) ;;
   b <- store_decimal 5 4 (debt_to_income_ratio f) ;;
   c <- store_decimal 5 2 (credit_score f) ;;
   d <- store_decimal 15 2 (loan_amount f) ;;
   e <- store_decimal 5 2 (interest_rate f) ;;
   g <- store_varchar 50 (gender f) ;;
   h <- store_varchar 50 (marital_status f) ;;
   i <- store_varchar 100 (education_level f) ;;
   j <- store_varchar 100 (employment_status f) ;;
   k <- store_varchar 100 (loan_purpose f) ;;
   l <- store_varchar 10 (grade_subgrade f) ;;
   Ok (mkFeatures a b c d e g h i j k l))%result.

(** ** Collaborators outside the repository *)

(** The signed content of a token: the [sub] and [exp] entries of the
    payload dictionary. *)
Record Claims : Type := mkClaims {
  sub : option string;
  exp : option Z
}.

Record Collaborators : Type := mkCollaborators {
  (* sort key of the collation utf8mb4_unicode_ci: two strings are equal
     for the server when their keys are *)
  collate : string -> string;
  (* digest of bcrypt: the 29-character salt prefix and the password give
     the 31 characters that follow the prefix *)
  bcrypt_digest : string -> string -> string;
  (* the 22 salt characters of the n-th call of bcrypt.gensalt() *)
  salt_of_draw : nat -> string;
  (* HMAC-SHA256 of the encoded header and payload under a key *)
  hs256 : string -> Claims -> string;
  (* the n-th value of uuid.uuid4() *)
  uuid_of_draw : nat -> string;
  (* what the connector makes of a NaN parameter: NULL, or the bare word
     nan, which the server takes for a column name and rejects *)
  nan_as_null : bool;
  (* pipeline.predict and pipeline.predict_proba[:, 1], row by row *)
  pipeline_predict : Features -> Z;
  pipeline_predict_proba : Features -> Q
}.

(** ** bcrypt, as [database.py] uses it *)

Definition is_digit (c : ascii) : bool :=
  let n := nat_of_ascii c in ((48 <=? n) && (n <=? 57))%nat.

(** The 64 characters of bcrypt's own base64: [.], [/], digits, letters. *)
Definition is_bcrypt64 (c : ascii) : bool :=
  let n := nat_of_ascii c in
  (((46 <=? n) && (n <=? 57)) || ((65 <=? n) && (n <=? 90))
   || ((97 <=? n) && (n <=? 122)))%nat.

Fixpoint all_chars (f : ascii -> bool) (s : string) : bool :=
  match s with
  | EmptyString => true
  | String c s' => f c && all_chars f s'
  end.

(** The number two decimal digits stand for. *)
Definition cost_of (c1 c2 : ascii) : nat :=
  10 * (nat_of_ascii c1 - 48) + (nat_of_ascii c2 - 48).

(** The shape of a bcrypt string after its marker: the marker's letter is
    judged by [letter]; then [$], a two-digit cost from 04 to 31, [$] and
    22 salt characters of bcrypt's base64. *)
Definition bcrypt_shape (letter : ascii -> bool) (s : string) : bool :=
  match s with
  | String d0 (String two (String v (String d1
      (String c1 (String c2 (String d2 rest)))))) =>
      (Ascii.eqb d0 "$" && Ascii.eqb two "2" && letter v
       && Ascii.eqb d1 "$"
       && is_digit c1 && is_digit c2
       && (4 <=? cost_of c1 c2)%nat && (cost_of c1 c2 <=? 31)%nat
       && Ascii.eqb d2 "$")
      && (22 <=? String.length rest)%nat
      && all_chars is_bcrypt64 (substring 0 22 rest)
  | _ => false
  end.

(** The salt prefix of a bcrypt string, its first 29 characters: [$2a$],
    [$2b$] or [$2y$], the cost, [$] and the salt; [None] when the string
    does not start that way.  (A [$2x$] string, which only some releases
    of the package take, counts as refused.) *)
Definition bcrypt_salt (s : string) : option string :=
  if bcrypt_shape (fun v => Ascii.eqb v "a" || Ascii.eqb v "b"
                            || Ascii.eqb v "y") s
  then Some (substring 0 29 s)
  else None.

Section Service.

Variable ext : Collaborators.

(** [bcrypt.gensalt()]. *)
Definition gensalt : Svc string :=
  fun w => (Ok (String.append "$2b$12$" (salt_of_draw ext (draws w))),
            set_draws w (S (draws w))).

(** [bcrypt.hashpw(password, salt)]; raises [ValueError] on a salt that
    does not parse. *)
Definition hashpw (password salt : string) : Result string :=
  match bcrypt_salt salt with
  | None => Raise (ValueError "Invalid salt")
  | Some prefix => Ok (String.append prefix (bcrypt_digest ext prefix password))
  end.

(** [bcrypt.checkpw(password, hashed)]: hashes the password under the
    salt of [hashed] and compares. *)
Definition checkpw (password hashed : string) : Result bool :=
  (ret <- hashpw password hashed ;; Ok (String.eqb ret hashed))%result.

Definition lift {A} (r : Result A) : Svc A := fun w => (r, w).

(** [hash_password]. *)
Definition hash_password (password : string) : Svc string :=
  (salt <- gensalt ;; lift (hashpw password salt))%svc.

(** [verify_password]. *)
Definition verify_password (plain_password hashed_password : string)
  : Result bool :=
  checkpw plain_password hashed_password.

(** ** Bearer tokens *)

Definition SECRET_KEY : string := "your-secret-key-change-in-production".
Definition ACCESS_TOKEN_EXPIRE_MINUTES : Z := 1440.

(** A compact token is either text that does not parse as header, payload
    and signature, or the payload with its signature. *)
Inductive Token : Type :=
| Garbage (raw : string)
| Signed (claims : Claims) (signature : string).

Inductive PyJWTError : Type :=
| ExpiredSignatureError
| InvalidSignatureError
| DecodeError.

(** [jwt.encode(payload, key, algorithm="HS256")]. *)
Definition jwt_encode (payload : Claims) (key : string) : Token :=
  Signed payload (hs256 ext key payload).

(** [jwt.decode(token, key, algorithms=["HS256"])] at time [now], as
    PyJWT 2 does it: the signature is verified first, then the [exp]
    claim, which has expired when [exp <= now]. *)
Definition jwt_decode (token : Token) (key : string) (now : Z)
  : PyJWTError + Claims :=
  match token with
  | Garbage _ => inl DecodeError
  | Signed payload signature =>
      if String.eqb signature (hs256 ext key payload) then
        match exp payload with
        | Some e => if e <=? now then inl ExpiredSignatureError
                    else inr payload
        | None => inr payload
        end
      else inl InvalidSignatureError
  end.

(** [create_access_token]: the caller's claims with [exp] set to 24 hours
    from now. *)
Definition create_access_token (data : Claims) : Svc Token :=
  fun w =>
    let expire := clock w + ACCESS_TOKEN_EXPIRE_MINUTES * 60 in
    let to_encode := mkClaims (sub data) (Some expire) in
    (Ok (jwt_encode to_encode SECRET_KEY), w).

(** [decode_token]. *)
Definition decode_token (token : Token) : Svc Claims :=
  fun w =>
    match jwt_decode token SECRET_KEY (clock w) with
    | inr payload => (Ok payload, w)
    | inl ExpiredSignatureError =>
        (Raise (HTTPException 401 "Token expired"), w)
    | inl _ => (Raise (HTTPException 401 "Invalid token"), w)
    end.

(** ** User registry *)

Definition same_text (a b : string) : bool :=
  String.eqb (collate ext a) (collate ext b).

(** [INSERT INTO users (username, email, hashed_password)]: both UNIQUE
    keys are checked by the server; the result is [cursor.lastrowid]. *)
Definition insert_user (username0 email0 hashed_pw : string) : Cursor Z :=
  fun now d =>
    match (a <- store_varchar 255 username0 ;;
           b <- store_varchar 255 email0 ;;
           c <- store_varchar 255 hashed_pw ;;
           Ok (a, b, c))%result with
    | Raise e => (Raise e, d)
    | Ok (a, b, c) =>
        if existsb (fun u => same_text (username u) a) (users d) then
          (Raise (IntegrityError "Duplicate entry for key 'username'"), d)
        else if existsb (fun u => same_text (email u) b) (users d) then
          (Raise (IntegrityError "Duplicate entry for key 'email'"), d)
        else
          let new_id := users_auto_increment d in
          if existsb (fun u => u_id u =? new_id) (users d) then
            (Raise (IntegrityError "Duplicate entry for key 'PRIMARY'"), d)
          else
            (Ok new_id,
             mkDatabase (users d ++ [mkUser new_id a b c now])
                        (predictions d)
                        (new_id + 1)
                        (predictions_auto_increment d))
    end.

(** The dictionary [create_user] returns. *)
Record UserDict : Type := mkUserDict {
  ud_id : Z;
  ud_username : string;
  ud_email : string;
  ud_hashed_password : string
}.

(** [create_user]. *)
Definition create_user (username0 email0 password : string) : Svc UserDict :=
  (hashed_pw <- hash_password password ;;
   get_db (user_id0 <- insert_user username0 email0 hashed_pw ;;
           cret (mkUserDict user_id0 username0 email0 hashed_pw))%cursor)%svc.

(** [get_user_by_username]: [fetchone] of the rows with that username. *)
Definition get_user_by_username (username0 : string) : Svc (option User) :=
  get_db (fun _ d =>
            (Ok (find (fun u => same_text (username u) username0) (users d)),
             d)).

(** [get_user_by_email]. *)
Definition get_user_by_email (email0 : string) : Svc (option User) :=
  get_db (fun _ d =>
            (Ok (find (fun u => same_text (email u) email0) (users d)), d)).

(** [get_current_user], from the bearer token of the request. *)
Definition get_current_user (token : Token) : Svc User :=
  (payload <- decode_token token ;;
   match sub payload with
   | None => sraise (HTTPException 401 "Invalid token")
   | Some username0 =>
       user <- get_user_by_username username0 ;;
       match user with
       | None => sraise (HTTPException 401 "User not found")
       | Some u => sret u
       end
   end)%svc.

(** The body of a successful [/register] or [/login]. *)
Record TokenResponse : Type := mkTokenResponse {
  access_token : Token;
  token_type : string
}.

(** [register]. *)
Definition register (username0 email0 password : string)
  : Svc TokenResponse :=
  (by_name <- get_user_by_username username0 ;;
   match by_name with
   | Some _ => sraise (HTTPException 400 "Username already exists")
   | None =>
       by_email <- get_user_by_email email0 ;;
       match by_email with
       | Some _ => sraise (HTTPException 400 "Email already exists")
       | None =>
           user <- create_user username0 email0 password ;;
           tok <- create_access_token
                    (mkClaims (Some (ud_username user)) None) ;;
           sret (mkTokenResponse tok "bearer")
       end
   end)%svc.

(** [login]. *)
Definition login (username0 password : string) : Svc TokenResponse :=
  (user <- get_user_by_username username0 ;;
   match user with
   | None => sraise (HTTPException 401 "Invalid credentials")
   | Some u =>
       ok <- lift (verify_password password (hashed_password u)) ;;
       if negb ok
       then sraise (HTTPException 401 "Invalid credentials")
       else
         tok <- create_access_token (mkClaims (Some (username u)) None) ;;
         sret (mkTokenResponse tok "bearer")
   end)%svc.

(** ** Prediction record store *)

(** The [name] parameter of the insert, for the nullable [VARCHAR(255)]. *)
Definition store_name (name : NameCell) : Result (option string) :=
  match name with
  | Text t => (t' <- store_varchar 255 t ;; Ok (Some t'))%result
  | NaN => if nan_as_null ext
           then Ok None
           else Raise (ProgrammingError "Unknown column 'nan' in 'field list'")
  end.

(** The values of an inserted row, each through its column type. *)
Definition prediction_columns (name : NameCell) (loan_data : Features)
    (prediction0 : Z) (probability0 : Q) (prediction_type0 : string)
    (batch_id0 : option string)
  : Result (option string * Features * Z * Q * string * option string) :=
  (n <- store_name name ;;
   f <- store_features loan_data ;;
   p <- store_tinyint prediction0 ;;
   q <- store_decimal 5 4 probability0 ;;
   t <- store_varchar 20 prediction_type0 ;;
   b <- store_varchar_null 255 batch_id0 ;;
   Ok (n, f, p, q, t, b))%result.

(** [INSERT INTO predictions (...)]: every value goes through its column
    type, [created_at] defaults to the server's clock, the owner must
    exist ([FOREIGN KEY]); the result is [cursor.lastrowid]. *)
Definition insert_prediction (user_id0 : Z) (name : NameCell)
    (loan_data : Features) (prediction0 : Z) (probability0 : Q)
    (prediction_type0 : string) (batch_id0 : option string) : Cursor Z :=
  fun now d =>
    match prediction_columns name loan_data prediction0 probability0
                             prediction_type0 batch_id0 with
    | Raise e => (Raise e, d)
    | Ok (n, f, p, q, t, b) =>
        if negb (existsb (fun u => u_id u =? user_id0) (users d)) then
          (Raise (IntegrityError "a foreign key constraint fails"), d)
        else
          let new_id := predictions_auto_increment d in
          if existsb (fun r => p_id r =? new_id) (predictions d) then
            (Raise (IntegrityError "Duplicate entry for key 'PRIMARY'"), d)
          else
            (Ok new_id,
             mkDatabase (users d)
                        (predictions d
                           ++ [mkPrediction new_id user_id0 n f p q t b now])
                        (users_auto_increment d)
                        (new_id + 1))
    end.

(** [SELECT * FROM predictions WHERE id = %s] and [fetchone]. *)
Definition select_prediction (prediction_id : Z)
  : Cursor (option Prediction) :=
  fun _ d => (Ok (find (fun r => p_id r =? prediction_id) (predictions d)), d).

(** [create_prediction]: one insert and the read-back of the stored row,
    in one scope of [get_db].  The row keeps [created_at] as a time; its
    rendering by [isoformat()] is not modelled. *)
Definition create_prediction (user_id0 : Z) (name : NameCell)
    (loan_data : Features) (prediction0 : Z) (probability0 : Q)
    (prediction_type0 : string) (batch_id0 : option string)
  : Svc (option Prediction) :=
  get_db (prediction_id <- insert_prediction user_id0 name loan_data
                             prediction0 probability0 prediction_type0
                             batch_id0 ;;
          row <- select_prediction prediction_id ;;
          cret row)%cursor.

(** [ORDER BY created_at DESC]: insertion into a list that is already
    newest first, after the rows that are at least as new. *)
Fixpoint insert_desc (r : Prediction) (l : list Prediction)
  : list Prediction :=
  match l with
  | [] => [r]
  | x :: l' => if created_at x <? created_at r
               then r :: x :: l'
               else x :: insert_desc r l'
  end.

Definition order_by_created_at_desc (l : list Prediction) : list Prediction :=
  fold_right insert_desc [] l.

(** [get_user_predictions]: [fetchall] of the user's rows, newest first.
    The conversions of the loop ([isoformat()], [float(...)]) change the
    representation of a value, not the value, and are not modelled. *)
Definition get_user_predictions (user_id0 : Z) : Svc (list Prediction) :=
  get_db (fun _ d =>
            (Ok (order_by_created_at_desc
                   (filter (fun r => user_id r =? user_id0) (predictions d))),
             d)).

(** ** Inference request handlers *)

(** The pydantic model [LoanData]: [name] and the scored fields. *)
Record LoanData : Type := mkLoanData {
  name : string;
  features : Features
}.

Record PredictionResponse : Type := mkPredictionResponse {
  r_id : Z;
  r_prediction : Z;
  r_probability : Q;
  r_created_at : Z
}.

Definition not_subscriptable : exn :=
  TypeError "'NoneType' object is not subscriptable".

(** [predict_single], for the user that [get_current_user] resolved. *)
Definition predict_single (data : LoanData) (current_user : User)
  : Svc PredictionResponse :=
  let loan_data_dict := features data in
  let pred := pipeline_predict ext loan_data_dict in
  let prob := pipeline_predict_proba ext loan_data_dict in
  (stored <- create_prediction (u_id current_user) (Text (name data))
                               loan_data_dict pred prob "single" None ;;
   match stored with
   | None => sraise not_subscriptable
   | Some row =>
       sret (mkPredictionResponse (p_id row) (prediction row)
                                  (probability row) (created_at row))
   end)%svc.

(** The parsed upload: a table with or without a [name] column, its
    feature cells already of the types the loop converts them to. *)
Inductive DataFrame : Type :=
| FrameWithName (rows : list (NameCell * Features))
| FrameWithoutName (rows : list Features).

(** [df["name"].tolist() if "name" in df.columns else ["Unknown"] * len(df)]. *)
Definition names (df : DataFrame) : list NameCell :=
  match df with
  | FrameWithName rows => map fst rows
  | FrameWithoutName rows => repeat (Text "Unknown") (List.length rows)
  end.

(** [df.drop(columns=["name"], errors="ignore")]. *)
Definition df_for_prediction (df : DataFrame) : list Features :=
  match df with
  | FrameWithName rows => map snd rows
  | FrameWithoutName rows => rows
  end.

Record BatchEntry : Type := mkBatchEntry {
  e_name : NameCell;
  e_prediction : Z;
  e_probability : Q
}.

Record BatchResponse : Type := mkBatchResponse {
  b_batch_id : string;
  count : nat;
  b_predictions : list BatchEntry
}.

(** [uuid.uuid4()]. *)
Definition uuid4 : Svc string :=
  fun w => (Ok (uuid_of_draw ext (draws w)), set_draws w (S (draws w))).

(** The loop of [predict_batch] over the rows with their name, decision
    and probability: one [create_prediction] per row, then the entry is
    appended to [predictions]. *)
Fixpoint save_all (user_id0 : Z) (batch_id0 : string)
    (todo : list (NameCell * (Features * (Z * Q))))
    (done : list BatchEntry) : Svc (list BatchEntry) :=
  match todo with
  | [] => sret done
  | (n, (row, (pred, prob))) :: rest =>
      (_ <- create_prediction user_id0 n row pred prob "batch"
                              (Some batch_id0) ;;
       save_all user_id0 batch_id0 rest
                (done ++ [mkBatchEntry n pred prob]))%svc
  end.

(** [predict_batch], on the parsed upload. *)
Definition predict_batch (df : DataFrame) (current_user : User)
  : Svc BatchResponse :=
  let names0 := names df in
  let frame := df_for_prediction df in
  let preds := map (pipeline_predict ext) frame in
  let probs := map (pipeline_predict_proba ext) frame in
  (batch_id0 <- uuid4 ;;
   entries <- save_all (u_id current_user) batch_id0
                (combine names0 (combine frame (combine preds probs))) [] ;;
   sret (mkBatchResponse batch_id0 (List.length entries) entries))%svc.

(** [get_history]. *)
Definition get_history (current_user : User) : Svc (list Prediction) :=
  get_user_predictions (u_id current_user).

End Service.

(** ** Vocabulary of the statements *)

(** A scope can obtain a handle: the pool exists, or can be created, and
    has a free connection. *)
Definition available (w : World) : bool :=
  match connection_pool (ensure_pool w) with
  | Some p => (checked_out p <? pool_size p)%nat
  | None => false
  end.

(** Keys handed out by AUTO_INCREMENT are below the counter. *)
Definition ids_below_counter (d : Database) : Prop :=
  Forall (fun r => p_id r < predictions_auto_increment d) (predictions d).

Definition is_user (user_id0 : Z) (d : Database) : bool :=
  existsb (fun u => u_id u =? user_id0) (users d).

(** Number of stored users whose username, or email, the server takes for
    the given one. *)
Definition username_count (ext : Collaborators) (username0 : string)
    (d : Database) : nat :=
  List.length (filter (fun u => same_text ext (username u) username0) (users d)).

Definition email_count (ext : Collaborators) (email0 : string)
    (d : Database) : nat :=
  List.length (filter (fun u => same_text ext (email u) email0) (users d)).

(** The value a [DECIMAL(5,4)] column keeps of a probability. *)
Definition four_decimals (q : Q) : Q :=
  Qmake (round_half_away (q * inject_Z 10000)) 10000.

(** What the [name] column keeps of a name. *)
Definition stored_name (name : NameCell) : option string :=
  match name with
  | Text t => Some t
  | NaN => None
  end.

(** What one row of a batch leaves in the table. *)
Definition persisted_as (user_id0 : Z) (batch_id0 : string) (now : Z)
    (input : NameCell * (Features * (Z * Q))) (r : Prediction) : Prop :=
  let '(n, (f, (pred, prob))) := input in
  user_id r = user_id0 /\
  p_name r = stored_name n /\
  store_features f = Ok (p_features r) /\
  prediction r = pred /\
  probability r = four_decimals prob /\
  prediction_type r = "batch" /\
  batch_id r = Some batch_id0 /\
  created_at r = now.

(** The rows of a batch as the loop sees them. *)
Definition batch_inputs (ext : Collaborators) (df : DataFrame)
  : list (NameCell * (Features * (Z * Q))) :=
  combine (names df)
    (combine (df_for_prediction df)
       (combine (map (pipeline_predict ext) (df_for_prediction df))
                (map (pipeline_predict_proba ext) (df_for_prediction df)))).

(** The server accepts the row. *)
Definition accepted (ext : Collaborators) (batch_id0 : string)
    (input : NameCell * (Features * (Z * Q))) : bool :=
  let '(n, (f, (pred, prob))) := input in
  match prediction_columns ext n f pred prob "batch" (Some batch_id0) with
  | Ok _ => true
  | Raise _ => false
  end.

(** The response entry of a row of a batch. *)
Definition entry_of_input (input : NameCell * (Features * (Z * Q)))
  : BatchEntry :=
  let '(n, (_, (pred, prob))) := input in mkBatchEntry n pred prob.

(** Every stored batch identifier was produced by an earlier [uuid4()]. *)
Definition batch_ids_drawn (ext : Collaborators) (w : World) : Prop :=
  Forall (fun r => forall b, batch_id r = Some b ->
                   exists k, (k < draws w)%nat /\ b = uuid_of_draw ext k)
         (predictions (db w)).

(** [uuid4()] does not return the same value twice. *)
Definition never_repeats (ext : Collaborators) : Prop :=
  forall i j : nat, uuid_of_draw ext i = uuid_of_draw ext j -> i = j.

(** Order of a history: [a] may come before [b]. *)
Definition newer_or_equal (a b : Prediction) : Prop :=
  created_at b <= created_at a.

(** ** A concrete service, for the examples *)

Fixpoint tally (n : nat) : string :=
  match n with
  | O => "id-"
  | S k => String "I" (tally k)
  end.

Definition sample_features : Features :=
  mkFeatures (90000 # 1) (1 # 4) (750 # 1) (20000 # 1) (5 # 1)
             "Female" "Single" "Bachelor" "Employed" "Home" "A1".

(** A scorer that approves with probability 1/64 = 0.015625. *)
Definition sample_ext : Collaborators :=
  mkCollaborators
    (fun s => s)
    (fun salt password => String.append "digest:" password)
    (fun _ => "abcdefghijklmnopqrstuv")
    (fun key claims =>
       String.append key
         (match sub claims with Some s => s | None => "" end))
    tally
    true
    (fun _ => 1)
    (fun _ => 1 # 64).

(** The same service with a connector that sends NaN as the word nan. *)
Definition bare_nan_ext : Collaborators :=
  mkCollaborators (collate sample_ext) (bcrypt_digest sample_ext)
                  (salt_of_draw sample_ext) (hs256 sample_ext)
                  (uuid_of_draw sample_ext) false
                  (pipeline_predict sample_ext)
                  (pipeline_predict_proba sample_ext).

Definition alice : User :=
  mkUser 1 "alice" "alice@x.com"
         "$2b$12$abcdefghijklmnopqrstuvdigest:pw123" 0.

Definition sample_db : Database := mkDatabase [alice] [] 2 1.

(** A running service whose pool exists. *)
Definition sample_world : World :=
  mkWorld (Some (mkPool 5 0)) true sample_db 1000 0 [].

Definition sample_loan : LoanData := mkLoanData "Alice" sample_features.

Definition bob : User :=
  mkUser 2 "bob" "bob@x.com" "$2b$12$abcdefghijklmnopqrstuvdigest:hunter2" 5.

Definition stored (id0 user_id0 : Z) (batch : option string) (at0 : Z)
  : Prediction :=
  mkPrediction id0 user_id0 (Some "Alice") sample_features 1 (156 # 10000)
               (match batch with Some _ => "batch" | None => "single" end)
               batch at0.

(** Two users with interleaved predictions, one of them from a batch. *)
Definition busy_world : World :=
  mkWorld (Some (mkPool 5 0)) true
          (mkDatabase [alice; bob]
                      [stored 1 1 None 10; stored 2 2 None 20;
                       stored 3 1 (Some (tally 0)) 30; stored 4 2 None 40;
                       stored 5 1 None 50]
                      3 6)
          1000 1 [].

(** A service whose database server is down and whose pool was never
    created. *)
Definition down_world : World :=
  mkWorld None false sample_db 1000 0 [].

(** ** The other readers of the prediction store *)

(** [get_prediction_by_id]: [fetchone] of the row with that key. *)
Definition get_prediction_by_id (prediction_id : Z) : Svc (option Prediction) :=
  get_db (select_prediction prediction_id).

(** [ORDER BY created_at]: insertion into a list that is already oldest
    first, after the rows that are at least as old. *)
Fixpoint insert_asc (r : Prediction) (l : list Prediction)
  : list Prediction :=
  match l with
  | [] => [r]
  | x :: l' => if created_at r <? created_at x
               then r :: x :: l'
               else x :: insert_asc r l'
  end.

Definition order_by_created_at (l : list Prediction) : list Prediction :=
  fold_right insert_asc [] l.

(** The rows [WHERE batch_id = %s] keeps: a NULL never compares equal. *)
Definition in_batch (ext : Collaborators) (batch_id0 : string)
    (r : Prediction) : bool :=
  match batch_id r with
  | Some b => same_text ext b batch_id0
  | None => false
  end.

(** [get_batch_predictions]: [fetchall] of the rows of a batch, oldest
    first. *)
Definition get_batch_predictions (ext : Collaborators) (batch_id0 : string)
  : Svc (list Prediction) :=
  get_db (fun _ d =>
            (Ok (order_by_created_at
                   (filter (in_batch ext batch_id0) (predictions d))),
             d)).

(** ** More vocabulary *)


(** Three rows, the second with a credit score that [DECIMAL(5,2)] cannot
    hold. *)
Definition refused_features : Features :=
  mkFeatures (30000 # 1) (6 # 10) (1000 # 1) (25000 # 1) (75 # 10)
             "Male" "Single" "High School" "Unemployed" "Car" "E2".

Definition mixed_upload : DataFrame :=
  FrameWithoutName [sample_features; refused_features; sample_features].

(** Three rows, the second with an empty [name] cell. *)
Definition blank_name_upload : DataFrame :=
  FrameWithName [(Text "Bob", sample_features); (NaN, sample_features);
                 (Text "Eve", sample_features)].

(** The two UNIQUE keys of [users]: no two rows with usernames, or with
    emails, that the server takes for the same. *)
Definition users_unique (ext : Collaborators) (d : Database) : Prop :=
  NoDup (map (fun u => collate ext (username u)) (users d)) /\
  NoDup (map (fun u => collate ext (email u)) (users d)).

(** Keys of [users] handed out by AUTO_INCREMENT are below the counter. *)
Definition user_ids_below_counter (d : Database) : Prop :=
  Forall (fun u => u_id u < users_auto_increment d) (users d).

(** Order of the rows of a batch: [a] may come before [b]. *)
Definition older_or_equal (a b : Prediction) : Prop :=
  created_at a <= created_at b.

(** The scope of a read, or of a committed write, as the trace shows it. *)
Definition committed_scope : list event :=
  [EvGetConnection; EvCursor; EvCommit; EvCursorClose; EvConnClose].

(** A service whose pool was never created and whose server is up. *)
Definition fresh_world : World :=
  mkWorld None true sample_db 1000 0 [].

(** * Properties *)

(** ** Scoped acquisition *)

Lemma release_acquire (p : Pool) : release (acquire p) = p.
Proof. destruct p; reflexivity. Qed.

Lemma ensure_pool_same (w : World) :
  server_up (ensure_pool w) = server_up w /\
  db (ensure_pool w) = db w /\
  clock (ensure_pool w) = clock w /\
  draws (ensure_pool w) = draws w.
Proof.
  unfold ensure_pool, init_connection_pool.
  destruct (connection_pool w); [tauto|].
  destruct (server_up w) eqn:E; simpl; rewrite ?E; tauto.
Qed.

Lemma available_pool (w : World) :
  available w = true ->
  exists p, connection_pool (ensure_pool w) = Some p /\
            (checked_out p <? pool_size p)%nat = true.
Proof.
  unfold available. destruct (connection_pool (ensure_pool w)) as [p|].
  - intros H. now exists p.
  - discriminate.
Qed.

(** What a scope returns and leaves behind when a handle can be had. *)
Lemma get_db_run {A : Type} (body : Cursor A) (w : World) :
  available w = true ->
  exists w',
    get_db body w = (fst (body (clock w) (db w)), w') /\
    available w' = true /\
    clock w' = clock w /\
    draws w' = draws w /\
    db w' = match body (clock w) (db w) with
            | (Ok _, d') => d'
            | (Raise _, d') => rollback (db w) d'
            end.
Proof.
  intros Hav. destruct (available_pool w Hav) as (p & Hp & Hfree).
  destruct (ensure_pool_same w) as (_ & Hdb & Hclock & Hdraws).
  unfold get_db. rewrite Hp, Hfree. cbn [emit set_pool clock db].
  rewrite Hdb, Hclock.
  destruct (body (clock w) (db w)) as [[a|e] d'] eqn:Hbody;
    eexists; (split; [reflexivity|]);
    unfold available, ensure_pool; cbn; rewrite ?release_acquire;
    rewrite ?Hfree, ?Hclock, ?Hdraws; auto.
Qed.

(** Scopes whose bodies only read all leave the same world behind, with
    the database as it was. *)
Lemma get_db_read (w : World) :
  available w = true ->
  exists w',
    (forall (A : Type) (q : Database -> A),
        get_db (fun _ d => (Ok (q d), d)) w = (Ok (q (db w)), w')) /\
    available w' = true /\ clock w' = clock w /\ draws w' = draws w /\
    db w' = db w.
Proof.
  intros Hav. destruct (available_pool w Hav) as (p & Hp & Hfree).
  destruct (ensure_pool_same w) as (_ & Hdb & Hclock & Hdraws).
  eexists. split; [|split; [|split; [|split]]].
  - intros A q. unfold get_db. rewrite Hp, Hfree.
    cbn [emit set_pool clock db]. rewrite Hdb. reflexivity.
  - unfold available, ensure_pool; cbn. destruct p; exact Hfree.
  - cbn. exact Hclock.
  - cbn. exact Hdraws.
  - reflexivity.
Qed.

(** Without a handle the scope fails before its body runs. *)
Lemma get_db_unavailable (w : World) :
  available w = false ->
  exists e w', forall (A : Type) (body : Cursor A),
      get_db body w = (Raise e, w').
Proof.
  unfold available, get_db.
  destruct (connection_pool (ensure_pool w)) as [p|].
  - intros Hfull. do 2 eexists. intros A body. rewrite Hfull. reflexivity.
  - intros _. do 2 eexists. intros A body. reflexivity.
Qed.

(** C3. A scope of [get_db] that obtained a handle commits when its body
    completes and rolls back, then re-raises, when its body raises; the
    cursor and the connection are closed on both paths and the pool gets
    its handle back. *)
Theorem get_db_commits_or_rolls_back_then_releases :
  forall (A : Type) (body : Cursor A) (w : World) (p : Pool),
    connection_pool (ensure_pool w) = Some p ->
    (checked_out p < pool_size p)%nat ->
    let w' := snd (get_db body w) in
    connection_pool w' = Some p /\
    match body (clock w) (db w) with
    | (Ok a, d') =>
        fst (get_db body w) = Ok a /\
        db w' = d' /\
        trace w' = trace (ensure_pool w)
                     ++ [EvGetConnection; EvCursor; EvCommit;
                         EvCursorClose; EvConnClose]
    | (Raise e, d') =>
        fst (get_db body w) = Raise e /\
        users (db w') = users (db w) /\
        predictions (db w') = predictions (db w) /\
        trace w' = trace (ensure_pool w)
                     ++ [EvGetConnection; EvCursor; EvRollback;
                         EvCursorClose; EvConnClose]
    end.
Proof.
  intros A body w p Hp Hfree.
  apply Nat.ltb_lt in Hfree.
  destruct (ensure_pool_same w) as (_ & Hdb & Hclock & _).
  unfold get_db. rewrite Hp, Hfree. cbn [emit set_pool clock db].
  rewrite Hdb, Hclock.
  destruct (body (clock w) (db w)) as [[a|e] d'];
    cbn; rewrite ?release_acquire, <- ?app_assoc; cbn; rewrite ?Hdb;
    destruct p; auto.
Qed.

Lemma get_db_commits_or_rolls_back_then_releases_witness :
  let w' := snd (get_db (fun _ d => (Ok tt, d)) sample_world) in
  connection_pool w' = Some (mkPool 5 0) /\
  fst (get_db (fun _ d => (Ok tt, d)) sample_world) = Ok tt /\
  db w' = sample_db /\
  trace w' = [EvGetConnection; EvCursor; EvCommit; EvCursorClose; EvConnClose].
Proof.
  apply (get_db_commits_or_rolls_back_then_releases
           unit (fun _ d => (Ok tt, d)) sample_world (mkPool 5 0)).
  - reflexivity.
  - simpl. lia.
Defined.

(** C7. When the pool does not exist and cannot be created, [get_db]
    fails before its body runs, and it fails with the [AttributeError] of
    the unset global, not with a connection error; the global stays unset,
    so the next acquisition tries to create the pool again. *)
Theorem get_db_without_pool_raises_attribute_error :
  forall (A : Type) (body : Cursor A) (w : World),
    connection_pool w = None ->
    server_up w = false ->
    fst (get_db body w) =
      Raise (AttributeError
               "'NoneType' object has no attribute 'get_connection'") /\
    connection_pool (snd (get_db body w)) = None /\
    db (snd (get_db body w)) = db w /\
    trace (snd (get_db body w)) = trace w ++ [EvInitPool false].
Proof.
  intros A body w Hnone Hdown.
  unfold get_db, ensure_pool, init_connection_pool.
  rewrite Hnone, Hdown. cbn. rewrite Hnone. cbn. auto.
Qed.

Lemma get_db_without_pool_raises_attribute_error_witness :
  fst (get_user_by_username sample_ext "alice" down_world) =
    Raise (AttributeError
             "'NoneType' object has no attribute 'get_connection'") /\
  connection_pool (snd (get_user_by_username sample_ext "alice" down_world))
    = None /\
  db (snd (get_user_by_username sample_ext "alice" down_world)) = sample_db /\
  trace (snd (get_user_by_username sample_ext "alice" down_world))
    = [EvInitPool false].
Proof.
  apply (get_db_without_pool_raises_attribute_error
           (option User)
           (fun _ d =>
              (Ok (find (fun u => same_text sample_ext (username u) "alice")
                        (users d)), d))
           down_world); reflexivity.
Defined.

(** ** Credential store *)


Lemma substring_0_length (n : nat) (s : string) :
  (n <= String.length s)%nat -> String.length (substring 0 n s) = n.
Proof.
  revert s. induction n as [|n IH]; intros [|c s]; cbn; try lia.
  intros H. rewrite IH; lia.
Qed.

Lemma substring_0_append (s x : string) :
  substring 0 (String.length s) (String.append s x) = s.
Proof.
  induction s as [|c s IH]; cbn.
  - destruct x; reflexivity.
  - now rewrite IH.
Qed.

Lemma length_append (s x : string) :
  String.length (String.append s x)
  = (String.length s + String.length x)%nat.
Proof. induction s as [|c s IH]; cbn; [reflexivity|now rewrite IH]. Qed.

Lemma all_chars_append (f : ascii -> bool) (s x : string) :
  all_chars f (String.append s x) = all_chars f s && all_chars f x.
Proof.
  induction s as [|c s IH]; cbn; [reflexivity|].
  now rewrite IH, andb_assoc.
Qed.

(** A string that starts with a salt prefix has that salt prefix. *)
Lemma bcrypt_salt_of_prefix (s prefix x : string) :
  bcrypt_salt s = Some prefix ->
  bcrypt_salt (String.append prefix x) = Some prefix.
Proof.
  unfold bcrypt_salt.
  destruct s as [|d0 [|two [|v [|d1 [|c1 [|c2 [|d2 rest]]]]]]];
    try discriminate.
  match goal with |- (if ?c then _ else _) = _ -> _ => destruct c eqn:C end;
    [|discriminate].
  intros H. injection H as <-.
  unfold bcrypt_shape in C.
  apply andb_true_iff in C. destruct C as (C & Halpha).
  apply andb_true_iff in C. destruct C as (C & Hlen).
  apply Nat.leb_le in Hlen.
  pose proof (substring_0_length 22 rest Hlen) as Hsalt.
  cbn [substring String.append]. unfold bcrypt_shape.
  rewrite C. cbn [andb].
  rewrite length_append, Hsalt.
  replace (22 <=? 22 + String.length x)%nat with true
    by (symmetry; apply Nat.leb_le; lia).
  cbn [andb substring].
  assert (Hsame : substring 0 22 (String.append (substring 0 22 rest) x)
                  = substring 0 22 rest).
  { rewrite <- Hsalt at 1. apply substring_0_append. }
  rewrite Hsame, Halpha. reflexivity.
Qed.

(** A password verifies against the hash [hashpw] made of it. *)
Lemma checkpw_of_hashpw (ext : Collaborators) (password salt hashed : string) :
  hashpw ext password salt = Ok hashed ->
  checkpw ext password hashed = Ok true.
Proof.
  unfold checkpw, hashpw.
  destruct (bcrypt_salt salt) as [prefix|] eqn:Hsalt; [|discriminate].
  intros H. injection H as <-.
  rewrite (bcrypt_salt_of_prefix _ _ _ Hsalt). cbn.
  now rewrite String.eqb_refl.
Qed.






(** ** Bearer tokens *)

(** C5. A token issued at time [clock w0] carries the expiry
    [T = clock w0 + 86400]; [decode_token] returns its payload, with the
    subject, at every time before [T], answers 401 "Token expired" at
    every time from [T] on, and answers 401 "Invalid token" for a token
    whose signature does not verify. *)
Theorem decode_token_until_expiry :
  forall (ext : Collaborators) (u : string) (e0 : option Z) (w0 w : World)
         (tok : Token),
    fst (create_access_token ext (mkClaims (Some u) e0) w0) = Ok tok ->
    let T := clock w0 + 86400 in
    (clock w < T ->
     decode_token ext tok w = (Ok (mkClaims (Some u) (Some T)), w)) /\
    (T <= clock w ->
     decode_token ext tok w = (Raise (HTTPException 401 "Token expired"), w))
    /\
    (forall (claims : Claims) (signature : string),
        String.eqb signature (hs256 ext SECRET_KEY claims) = false ->
        decode_token ext (Signed claims signature) w
          = (Raise (HTTPException 401 "Invalid token"), w)).
Proof.
  intros ext u e0 w0 w tok Hissue T.
  unfold create_access_token, jwt_encode in Hissue. cbn in Hissue.
  injection Hissue as <-.
  subst T. repeat split.
  - intros Hlt. unfold decode_token, jwt_decode.
    rewrite String.eqb_refl. cbn [exp].
    match goal with
    | |- context [?a <=? ?b] => destruct (Z.leb_spec a b)
    end; [cbn in *; lia|reflexivity].
  - intros Hge. unfold decode_token, jwt_decode.
    rewrite String.eqb_refl. cbn [exp].
    match goal with
    | |- context [?a <=? ?b] => destruct (Z.leb_spec a b)
    end; [reflexivity|cbn in *; lia].
  - intros claims signature Hsig. unfold decode_token, jwt_decode.
    now rewrite Hsig.
Qed.

Lemma decode_token_until_expiry_witness :
  let tok := Signed (mkClaims (Some "alice") (Some 87400))
                    (hs256 sample_ext SECRET_KEY
                           (mkClaims (Some "alice") (Some 87400))) in
  (clock sample_world < 87400 ->
   decode_token sample_ext tok sample_world
     = (Ok (mkClaims (Some "alice") (Some 87400)), sample_world)) /\
  (87400 <= clock sample_world ->
   decode_token sample_ext tok sample_world
     = (Raise (HTTPException 401 "Token expired"), sample_world)) /\
  (forall (claims : Claims) (signature : string),
      String.eqb signature (hs256 sample_ext SECRET_KEY claims) = false ->
      decode_token sample_ext (Signed claims signature) sample_world
        = (Raise (HTTPException 401 "Invalid token"), sample_world)).
Proof.
  exact (decode_token_until_expiry sample_ext "alice" None sample_world
           sample_world _ eq_refl).
Defined.

(** ** User registry and login *)

Lemma find_of_positive_count {A : Type} (f : A -> bool) (l : list A) :
  (0 < List.length (filter f l))%nat -> exists x, find f l = Some x.
Proof.
  induction l as [|a l IH]; cbn.
  - lia.
  - destruct (f a); [now exists a|exact IH].
Qed.



(** C4. [register] with a username, or an email, that a stored user
    already has answers 400 and writes nothing: the [users] table, and so
    the number of users with that username or email, is what it was. *)
Theorem register_duplicate_rejected :
  forall (ext : Collaborators) (w : World)
         (username0 email0 password : string),
    available w = true ->
    (0 < username_count ext username0 (db w))%nat \/
    (0 < email_count ext email0 (db w))%nat ->
    let w' := snd (register ext username0 email0 password w) in
    (fst (register ext username0 email0 password w)
       = Raise (HTTPException 400 "Username already exists") \/
     fst (register ext username0 email0 password w)
       = Raise (HTTPException 400 "Email already exists")) /\
    users (db w') = users (db w) /\
    username_count ext username0 (db w') = username_count ext username0 (db w)
    /\
    email_count ext email0 (db w') = email_count ext email0 (db w).
Proof.
  intros ext w username0 email0 password Hav Hdup.
  assert (Hgoal :
    let w' := snd (register ext username0 email0 password w) in
    (fst (register ext username0 email0 password w)
       = Raise (HTTPException 400 "Username already exists") \/
     fst (register ext username0 email0 password w)
       = Raise (HTTPException 400 "Email already exists")) /\
    users (db w') = users (db w)).
  { unfold register, sbind, get_user_by_username, get_user_by_email.
    destruct (get_db_read w Hav) as (w1 & Hread1 & Hav1 & _ & _ & Hdb1).
    rewrite Hread1.
    destruct (find (fun u => same_text ext (username u) username0)
                   (users (db w))) as [u|] eqn:Hname.
    - cbn. rewrite Hdb1. auto.
    - destruct (get_db_read w1 Hav1) as (w2 & Hread2 & _ & _ & _ & Hdb2).
      rewrite Hread2, Hdb1.
      destruct Hdup as [Hdup|Hdup];
        apply find_of_positive_count in Hdup; destruct Hdup as (x & Hx).
      + unfold username_count in *. congruence.
      + rewrite Hx. cbn. rewrite Hdb2, Hdb1. auto. }
  cbv zeta in Hgoal |- *. destruct Hgoal as (Hres & Husers).
  unfold username_count, email_count. rewrite Husers. auto.
Qed.

Lemma register_duplicate_rejected_witness :
  let w' := snd (register sample_ext "alice" "other@x.com" "pw" sample_world) in
  (fst (register sample_ext "alice" "other@x.com" "pw" sample_world)
     = Raise (HTTPException 400 "Username already exists") \/
   fst (register sample_ext "alice" "other@x.com" "pw" sample_world)
     = Raise (HTTPException 400 "Email already exists")) /\
  users (db w') = users (db sample_world) /\
  username_count sample_ext "alice" (db w')
    = username_count sample_ext "alice" (db sample_world) /\
  email_count sample_ext "other@x.com" (db w')
    = email_count sample_ext "other@x.com" (db sample_world).
Proof.
  apply (register_duplicate_rejected sample_ext sample_world
           "alice" "other@x.com" "pw").
  - reflexivity.
  - left. cbn. lia.
Defined.

(** ** History *)

Lemma insert_desc_perm (r : Prediction) (l : list Prediction) :
  Permutation (insert_desc r l) (r :: l).
Proof.
  induction l as [|x l IH]; cbn.
  - apply Permutation_refl.
  - destruct (created_at x <? created_at r).
    + apply Permutation_refl.
    + eapply perm_trans; [apply perm_skip, IH|apply perm_swap].
Qed.

Lemma insert_desc_sorted (r : Prediction) (l : list Prediction) :
  StronglySorted newer_or_equal l ->
  StronglySorted newer_or_equal (insert_desc r l).
Proof.
  induction 1 as [|x l Hsorted IH Hall]; cbn.
  - constructor; constructor.
  - destruct (Z.ltb_spec (created_at x) (created_at r)) as [Hlt|Hge].
    + constructor; [constructor; assumption|].
      constructor; [unfold newer_or_equal; lia|].
      eapply Forall_impl; [|exact Hall].
      unfold newer_or_equal. intros y Hy. lia.
    + constructor; [exact IH|].
      eapply Permutation_Forall;
        [apply Permutation_sym, insert_desc_perm|].
      constructor; [exact Hge|exact Hall].
Qed.

Lemma order_by_created_at_desc_perm (l : list Prediction) :
  Permutation (order_by_created_at_desc l) l.
Proof.
  induction l as [|x l IH]; cbn.
  - constructor.
  - eapply perm_trans; [apply insert_desc_perm|now apply perm_skip].
Qed.

Lemma order_by_created_at_desc_sorted (l : list Prediction) :
  StronglySorted newer_or_equal (order_by_created_at_desc l).
Proof.
  induction l as [|x l IH]; cbn.
  - constructor.
  - now apply insert_desc_sorted.
Qed.

(** C9. The history of a user is the list of exactly the stored
    predictions whose [user_id] is the user's id, each as often as it is
    stored, newest first by [created_at]; it is returned whole, and the
    database is not changed. *)
Theorem get_history_own_records_newest_first :
  forall (current_user : User) (w : World),
    available w = true ->
    exists (rows : list Prediction) (w' : World),
      get_history current_user w = (Ok rows, w') /\
      (forall r, In r rows <->
                 In r (predictions (db w)) /\ user_id r = u_id current_user) /\
      Permutation rows
        (filter (fun r => user_id r =? u_id current_user)
                (predictions (db w))) /\
      StronglySorted newer_or_equal rows /\
      db w' = db w.
Proof.
  intros current_user w Hav.
  destruct (get_db_read w Hav) as (w' & Hread & _ & _ & _ & Hdb).
  unfold get_history, get_user_predictions.
  eexists; exists w'. split; [apply Hread|].
  pose proof (order_by_created_at_desc_perm
                (filter (fun r => user_id r =? u_id current_user)
                        (predictions (db w)))) as Hperm.
  split; [|split; [exact Hperm|split;
                   [apply order_by_created_at_desc_sorted|exact Hdb]]].
  intros r. split.
  - intros Hin. eapply Permutation_in in Hin; [|exact Hperm].
    apply filter_In in Hin. destruct Hin as (Hin & Heq).
    apply Z.eqb_eq in Heq. auto.
  - intros (Hin & Heq). eapply Permutation_in;
      [apply Permutation_sym; exact Hperm|].
    apply filter_In. split; [exact Hin|now apply Z.eqb_eq].
Qed.

Lemma get_history_own_records_newest_first_witness :
  exists (rows : list Prediction) (w' : World),
    get_history alice busy_world = (Ok rows, w') /\
    (forall r, In r rows <->
               In r (predictions (db busy_world)) /\ user_id r = u_id alice)
    /\
    Permutation rows
      (filter (fun r => user_id r =? u_id alice)
              (predictions (db busy_world))) /\
    StronglySorted newer_or_equal rows /\
    db w' = db busy_world.
Proof.
  apply (get_history_own_records_newest_first alice busy_world).
  reflexivity.
Defined.

(** ** Rounding of [DECIMAL] columns *)

Lemma round_half_away_close (n : Z) (d : positive) :
  2 * Z.abs (round_half_away (n # d) * Zpos d - n) <= Zpos d.
Proof.
  unfold round_half_away. cbn [Qnum Qden].
  set (D := Zpos d). assert (HD : 0 < D) by (unfold D; lia).
  pose proof (Z.div_mod (2 * Z.abs n + D) (2 * D) ltac:(lia)) as Hdiv.
  pose proof (Z.mod_pos_bound (2 * Z.abs n + D) (2 * D) ltac:(lia)) as Hmod.
  set (m := (2 * Z.abs n + D) / (2 * D)) in *.
  set (r := (2 * Z.abs n + D) mod (2 * D)) in *.
  assert (Hm : 2 * Z.abs n + D = 2 * (m * D) + r) by lia.
  clearbody m r. clear Hdiv.
  destruct (Z.sgn_spec n) as [[Hn ->]|[[Hn ->]|[Hn ->]]].
  - replace (1 * m * D - n) with (m * D - n) by ring. lia.
  - subst n. replace (0 * m * D - 0) with 0 by ring. cbn. lia.
  - replace (-1 * m * D - n) with (- (m * D) - n) by ring. lia.
Qed.

Lemma four_decimals_close (q : Q) :
  (Qabs (four_decimals q - q) <= 1 # 20000)%Q.
Proof.
  destruct q as [n d]. unfold four_decimals.
  pose proof (round_half_away_close (n * 10000) (d * 1)) as Hclose.
  change ((n # d) * inject_Z 10000)%Q with ((n * 10000) # (d * 1))%Q.
  set (k := round_half_away ((n * 10000) # (d * 1))) in *. clearbody k.
  unfold Qle, Qabs, Qminus, Qplus, Qopp. cbn [Qnum Qden].
  rewrite Pos2Z.inj_mul in *. lia.
Qed.

(** A probability keeps its value when it has at most four decimals. *)
Lemma four_decimals_exact (q : Q) (k : Z) :
  (q == k # 10000)%Q -> (four_decimals q == q)%Q.
Proof.
  destruct q as [n d]. unfold four_decimals. intros Hq.
  pose proof (round_half_away_close (n * 10000) (d * 1)) as Hclose.
  change ((n # d) * inject_Z 10000)%Q with ((n * 10000) # (d * 1))%Q.
  set (r := round_half_away ((n * 10000) # (d * 1))) in *. clearbody r.
  unfold Qeq in *. cbn [Qnum Qden] in *.
  rewrite Pos2Z.inj_mul in Hclose.
  assert (Hr : r = k) by nia.
  subst r. lia.
Qed.

Lemma store_probability (q : Q) :
  (0 <= q)%Q -> (q <= 1)%Q -> store_decimal 5 4 q = Ok (four_decimals q).
Proof.
  destruct q as [n d]. unfold Qle. cbn [Qnum Qden]. intros H0 H1.
  unfold store_decimal, four_decimals.
  change (inject_Z (10 ^ 4)) with (inject_Z 10000).
  change (Z.to_pos (10 ^ 4)) with 10000%positive.
  pose proof (round_half_away_close (n * 10000) (d * 1)) as Hclose.
  change ((n # d) * inject_Z 10000)%Q with ((n * 10000) # (d * 1))%Q.
  set (r := round_half_away ((n * 10000) # (d * 1))) in *. clearbody r.
  rewrite Pos2Z.inj_mul in Hclose.
  assert (Hr : Z.abs r < 10 ^ 5) by (change (10 ^ 5) with 100000; nia).
  apply Z.ltb_lt in Hr. now rewrite Hr.
Qed.

(** ** The prediction store *)

Lemma find_after_fresh {A : Type} (f : A -> bool) (l : list A) (x : A) :
  existsb f l = false -> f x = true -> find f (l ++ [x]) = Some x.
Proof.
  induction l as [|a l IH]; cbn; intros Hnone Hx.
  - now rewrite Hx.
  - apply orb_false_iff in Hnone. destruct Hnone as (Ha & Hl).
    rewrite Ha. now apply IH.
Qed.

Lemma fresh_key (d : Database) :
  ids_below_counter d ->
  existsb (fun r => p_id r =? predictions_auto_increment d) (predictions d)
    = false.
Proof.
  unfold ids_below_counter. induction 1 as [|r l Hr _ IH]; cbn.
  - reflexivity.
  - rewrite IH, orb_false_r. apply Z.eqb_neq. lia.
Qed.

(** One [create_prediction] that the server accepts: the row it appends
    and returns. *)
Lemma create_prediction_accepted (ext : Collaborators) (user_id0 : Z)
    (name : NameCell)
    (loan_data : Features) (prediction0 : Z) (probability0 : Q)
    (prediction_type0 : string) (batch_id0 : option string) (w : World)
    (n : option string) (f : Features) (p : Z) (q : Q) (t : string)
    (b : option string) :
  available w = true ->
  is_user user_id0 (db w) = true ->
  ids_below_counter (db w) ->
  prediction_columns ext name loan_data prediction0 probability0
                     prediction_type0 batch_id0 = Ok (n, f, p, q, t, b) ->
  let row := mkPrediction (predictions_auto_increment (db w)) user_id0
                          n f p q t b (clock w) in
  exists w',
    create_prediction ext user_id0 name loan_data prediction0 probability0
                      prediction_type0 batch_id0 w = (Ok (Some row), w') /\
    available w' = true /\ clock w' = clock w /\ draws w' = draws w /\
    users (db w') = users (db w) /\
    predictions (db w') = predictions (db w) ++ [row] /\
    ids_below_counter (db w').
Proof.
  intros Hav Huser Hids Hcols row.
  unfold create_prediction.
  match goal with
  | |- exists w', get_db ?body w = _ /\ _ =>
      destruct (get_db_run body w Hav) as (w' & Hrun & Hav' & Hc & Hd & Hdb);
      assert (Hbody : body (clock w) (db w)
                      = (Ok (Some row),
                         mkDatabase (users (db w))
                                    (predictions (db w) ++ [row])
                                    (users_auto_increment (db w))
                                    (predictions_auto_increment (db w) + 1)))
  end.
  { unfold cbind, insert_prediction, select_prediction, cret.
    rewrite Hcols. unfold is_user in Huser. rewrite Huser. cbn [negb].
    rewrite (fresh_key _ Hids). cbn [predictions].
    rewrite find_after_fresh;
      [reflexivity|apply fresh_key; exact Hids|cbn; apply Z.eqb_refl]. }
  rewrite Hbody in Hrun, Hdb. cbn [fst] in Hrun.
  exists w'. rewrite Hrun, Hdb. cbn [users predictions].
  repeat split; auto.
  unfold ids_below_counter in *. cbn [predictions predictions_auto_increment].
  apply Forall_app. split.
  - eapply Forall_impl; [|exact Hids]. cbn. intros; lia.
  - constructor; [cbn; lia|constructor].
Qed.

Lemma prediction_columns_single (ext : Collaborators) (name0 : string)
    (loan_data f : Features) (prediction0 : Z) (probability0 : Q) :
  (String.length name0 <= 255)%nat ->
  store_features loan_data = Ok f ->
  -128 <= prediction0 <= 127 ->
  (0 <= probability0)%Q -> (probability0 <= 1)%Q ->
  prediction_columns ext (Text name0) loan_data prediction0 probability0
                     "single" None
  = Ok (Some name0, f, prediction0, four_decimals probability0,
        "single", None).
Proof.
  intros Hname Hf Hpred H0 H1. unfold prediction_columns.
  unfold store_name, store_varchar at 1.
  apply Nat.leb_le in Hname. rewrite Hname. cbn [rbind]. rewrite Hf.
  cbn [rbind]. unfold store_tinyint.
  replace (-128 <=? prediction0) with true by (symmetry; apply Z.leb_le; lia).
  replace (prediction0 <=? 127) with true by (symmetry; apply Z.leb_le; lia).
  cbn [andb rbind]. rewrite (store_probability _ H0 H1). reflexivity.
Qed.

(** C1, amended. [predict_single] returns the scorer's decision unchanged
    and the scorer's probability as the [DECIMAL(5,4)] column keeps it:
    rounded to four decimals, so within 0.00005 of the scorer's value and
    equal to it when that value has at most four decimals.  The stored
    row carries the same two values. *)
Theorem predict_single_returns_stored_values :
  forall (ext : Collaborators) (data : LoanData) (current_user : User)
         (w : World) (f : Features),
    available w = true ->
    is_user (u_id current_user) (db w) = true ->
    ids_below_counter (db w) ->
    (String.length (name data) <= 255)%nat ->
    store_features (features data) = Ok f ->
    -128 <= pipeline_predict ext (features data) <= 127 ->
    (0 <= pipeline_predict_proba ext (features data))%Q ->
    (pipeline_predict_proba ext (features data) <= 1)%Q ->
    exists (resp : PredictionResponse) (row : Prediction) (w' : World),
      predict_single ext data current_user w = (Ok resp, w') /\
      predictions (db w') = predictions (db w) ++ [row] /\
      prediction row = pipeline_predict ext (features data) /\
      probability row = four_decimals (pipeline_predict_proba ext (features data)) /\
      r_prediction resp = pipeline_predict ext (features data) /\
      r_probability resp
        = four_decimals (pipeline_predict_proba ext (features data)) /\
      (Qabs (r_probability resp - pipeline_predict_proba ext (features data))
       <= 1 # 20000)%Q /\
      (forall k : Z,
          (pipeline_predict_proba ext (features data) == k # 10000)%Q ->
          (r_probability resp == pipeline_predict_proba ext (features data))%Q).
Proof.
  intros ext data current_user w f Hav Huser Hids Hname Hf Hpred H0 H1.
  pose proof (prediction_columns_single ext _ _ _ _ _ Hname Hf Hpred H0 H1)
    as Hcols.
  destruct (create_prediction_accepted ext _ _ _ _ _ _ _ w _ _ _ _ _ _
              Hav Huser Hids Hcols)
    as (w' & Hrun & _ & _ & _ & _ & Hrows & _).
  unfold predict_single, sbind. rewrite Hrun. cbn.
  do 3 eexists. split; [reflexivity|].
  split; [exact Hrows|]. cbn.
  repeat split; try reflexivity.
  - apply four_decimals_close.
  - intros k Hk. eapply four_decimals_exact; exact Hk.
Qed.

Lemma predict_single_returns_stored_values_witness :
  exists (resp : PredictionResponse) (w' : World),
    predict_single sample_ext sample_loan alice sample_world = (Ok resp, w') /\
    r_prediction resp = 1 /\
    r_probability resp = four_decimals (1 # 64).
Proof.
  destruct (predict_single_returns_stored_values
              sample_ext sample_loan alice sample_world
              (mkFeatures (9000000 # 100) (2500 # 10000) (75000 # 100)
                          (2000000 # 100) (500 # 100)
                          "Female" "Single" "Bachelor" "Employed" "Home" "A1"))
    as (resp & row & w' & Hrun & _ & _ & _ & Hpred & Hprob & _).
  - reflexivity.
  - reflexivity.
  - constructor.
  - simpl. lia.
  - reflexivity.
  - simpl. lia.
  - unfold Qle. simpl. lia.
  - unfold Qle. simpl. lia.
  - exists resp, w'. auto.
Defined.

(** C1, as stated, fails: a scorer's probability of 1/64 = 0.015625 comes
    back from [predict_single] as 0.0156. *)
Lemma predict_single_probability_is_rounded :
  exists (resp : PredictionResponse) (w' : World),
    predict_single sample_ext sample_loan alice sample_world = (Ok resp, w') /\
    pipeline_predict_proba sample_ext (features sample_loan) = 1 # 64 /\
    r_probability resp = 156 # 10000 /\
    ~ (r_probability resp
       == pipeline_predict_proba sample_ext (features sample_loan))%Q.
Proof.
  do 2 eexists. split; [vm_compute; reflexivity|].
  split; [reflexivity|]. split; [reflexivity|].
  unfold Qeq. simpl. lia.
Qed.

(** ** Batches *)

Lemma store_varchar_ok (k : nat) (s s' : string) :
  store_varchar k s = Ok s' -> s' = s.
Proof.
  unfold store_varchar. destruct (String.length s <=? k)%nat; congruence.
Qed.

Lemma store_varchar_null_ok (k : nat) (s s' : option string) :
  store_varchar_null k s = Ok s' -> s' = s.
Proof.
  destruct s as [t|]; cbn; [|congruence].
  destruct (store_varchar k t) eqn:E; [|congruence].
  apply store_varchar_ok in E. congruence.
Qed.

Lemma store_tinyint_ok (z z' : Z) : store_tinyint z = Ok z' -> z' = z.
Proof.
  unfold store_tinyint. destruct ((-128 <=? z) && (z <=? 127)); congruence.
Qed.

Lemma store_decimal_5_4_ok (q x : Q) :
  store_decimal 5 4 q = Ok x -> x = four_decimals q.
Proof.
  unfold store_decimal, four_decimals.
  change (inject_Z (10 ^ 4)) with (inject_Z 10000).
  change (Z.to_pos (10 ^ 4)) with 10000%positive.
  destruct (_ <? _); congruence.
Qed.

Lemma store_name_ok (ext : Collaborators) (name : NameCell)
    (n : option string) :
  store_name ext name = Ok n -> n = stored_name name.
Proof.
  destruct name as [t|]; cbn.
  - destruct (store_varchar 255 t) eqn:E; [|discriminate].
    apply store_varchar_ok in E. cbn. congruence.
  - destruct (nan_as_null ext); congruence.
Qed.

Lemma prediction_columns_inv (ext : Collaborators) (name : NameCell)
    (loan_data : Features)
    (prediction0 : Z) (probability0 : Q) (prediction_type0 : string)
    (batch_id0 : option string)
    (n : option string) (f : Features) (p : Z) (q : Q) (t : string)
    (b : option string) :
  prediction_columns ext name loan_data prediction0 probability0
                     prediction_type0 batch_id0 = Ok (n, f, p, q, t, b) ->
  n = stored_name name /\ store_features loan_data = Ok f /\ p = prediction0 /\
  q = four_decimals probability0 /\ t = prediction_type0 /\ b = batch_id0.
Proof.
  unfold prediction_columns.
  destruct (store_name ext name) as [n'|] eqn:En; [|discriminate].
  destruct (store_features loan_data) as [f'|] eqn:Ef; [|discriminate].
  destruct (store_tinyint prediction0) as [p'|] eqn:Ep; [|discriminate].
  destruct (store_decimal 5 4 probability0) as [q'|] eqn:Eq; [|discriminate].
  destruct (store_varchar 20 prediction_type0) as [t'|] eqn:Et;
    [|discriminate].
  destruct (store_varchar_null 255 batch_id0) as [b'|] eqn:Eb;
    [|discriminate].
  cbn. intros H. injection H as <- <- <- <- <- <-.
  apply store_name_ok in En. apply store_varchar_null_ok in Eb.
  apply store_tinyint_ok in Ep.
  apply store_decimal_5_4_ok in Eq. apply store_varchar_ok in Et.
  repeat split; assumption || reflexivity.
Qed.

(** The loop of a batch whose rows the server accepts: every row is
    appended to the table, in order, and every entry to the response. *)
Lemma save_all_accepted (ext : Collaborators) (user_id0 : Z)
    (batch_id0 : string) (todo : list (NameCell * (Features * (Z * Q)))) :
  forall (done : list BatchEntry) (w : World),
    available w = true ->
    is_user user_id0 (db w) = true ->
    ids_below_counter (db w) ->
    forallb (accepted ext batch_id0) todo = true ->
    exists (new : list Prediction) (w' : World),
      save_all ext user_id0 batch_id0 todo done w
        = (Ok (done ++ map entry_of_input todo), w') /\
      predictions (db w') = predictions (db w) ++ new /\
      Forall2 (persisted_as user_id0 batch_id0 (clock w)) todo new /\
      users (db w') = users (db w) /\
      available w' = true /\ clock w' = clock w /\ draws w' = draws w /\
      ids_below_counter (db w').
Proof.
  induction todo as [|[n [f [pred prob]]] rest IH];
    intros done w Hav Huser Hids Hacc.
  - exists [], w. cbn. rewrite !app_nil_r. repeat split; auto.
  - cbn [forallb] in Hacc. apply andb_true_iff in Hacc.
    destruct Hacc as (Hrow & Hrest). unfold accepted in Hrow.
    destruct (prediction_columns ext n f pred prob "batch" (Some batch_id0))
      as [[[[[[n' f'] p'] q'] t'] b']|] eqn:Hcols; [|discriminate].
    destruct (create_prediction_accepted ext _ _ _ _ _ _ _ w _ _ _ _ _ _
                Hav Huser Hids Hcols)
      as (w1 & Hrun & Hav1 & Hc1 & Hd1 & Hu1 & Hp1 & Hids1).
    assert (Huser1 : is_user user_id0 (db w1) = true)
      by (unfold is_user in *; now rewrite Hu1).
    destruct (IH (done ++ [mkBatchEntry n pred prob]) w1
                 Hav1 Huser1 Hids1 Hrest)
      as (new & w' & Hloop & Hp' & Hall & Hu' & Hav' & Hc' & Hd' & Hids').
    eexists (_ :: new), w'.
    cbn [save_all]. unfold sbind at 1. rewrite Hrun, Hloop.
    rewrite <- app_assoc. cbn [map app entry_of_input].
    split; [reflexivity|].
    split; [rewrite Hp', Hp1, <- app_assoc; reflexivity|].
    split.
    { constructor; [|rewrite <- Hc1; exact Hall].
      apply prediction_columns_inv in Hcols.
      destruct Hcols as (-> & Hf & -> & -> & -> & ->).
      cbn. repeat split; auto. }
    repeat split; try congruence; auto.
Qed.

Lemma batch_inputs_length (ext : Collaborators) (df : DataFrame) :
  List.length (batch_inputs ext df) = List.length (df_for_prediction df).
Proof.
  unfold batch_inputs. rewrite !length_combine, !length_map.
  destruct df as [rows|rows]; cbn;
    rewrite ?length_map, ?repeat_length; lia.
Qed.

Lemma available_set_draws (w : World) (n : nat) :
  available (set_draws w n) = available w.
Proof.
  destruct w as [[p|] up d c k t]; [reflexivity|].
  unfold available, ensure_pool, init_connection_pool, set_draws. cbn.
  destruct up; reflexivity.
Qed.

(** [predict_batch] on an upload whose rows the server accepts. *)
Lemma predict_batch_run (ext : Collaborators) (df : DataFrame)
    (current_user : User) (w : World) :
  available w = true ->
  is_user (u_id current_user) (db w) = true ->
  ids_below_counter (db w) ->
  forallb (accepted ext (uuid_of_draw ext (draws w))) (batch_inputs ext df)
    = true ->
  exists (new : list Prediction) (w' : World),
    predict_batch ext df current_user w
      = (Ok (mkBatchResponse (uuid_of_draw ext (draws w))
                             (List.length (batch_inputs ext df))
                             (map entry_of_input (batch_inputs ext df))),
         w') /\
    predictions (db w') = predictions (db w) ++ new /\
    Forall2 (persisted_as (u_id current_user) (uuid_of_draw ext (draws w))
                          (clock w))
            (batch_inputs ext df) new /\
    draws w' = S (draws w).
Proof.
  intros Hav Huser Hids Hacc.
  destruct (save_all_accepted ext (u_id current_user)
              (uuid_of_draw ext (draws w)) (batch_inputs ext df) []
              (set_draws w (S (draws w))))
    as (new & w' & Hloop & Hrows & Hall & _ & _ & _ & Hd & _); auto.
  { now rewrite available_set_draws. }
  exists new, w'. unfold predict_batch, sbind, uuid4.
  fold (batch_inputs ext df). rewrite Hloop. cbn [app].
  rewrite length_map. repeat split; auto.
Qed.

(** The identifier of a batch is the value [uuid4()] returned for it. *)
Lemma predict_batch_id (ext : Collaborators) (df : DataFrame)
    (current_user : User) (w w' : World) (resp : BatchResponse) :
  predict_batch ext df current_user w = (Ok resp, w') ->
  b_batch_id resp = uuid_of_draw ext (draws w).
Proof.
  unfold predict_batch, sbind, uuid4.
  destruct (save_all _ _ _ _ _) as [[entries|e] w1]; cbn; [|discriminate].
  intros H. injection H as <- _. reflexivity.
Qed.

Lemma persisted_as_batch (user_id0 : Z) (batch_id0 : string) (now : Z)
    (inputs : list (NameCell * (Features * (Z * Q))))
    (new : list Prediction) :
  Forall2 (persisted_as user_id0 batch_id0 now) inputs new ->
  Forall (fun r => batch_id r = Some batch_id0 /\
                   prediction_type r = "batch" /\
                   user_id r = user_id0) new /\
  map p_name new = map stored_name (map fst inputs).
Proof.
  induction 1 as [|[n [f [pred prob]]] r inputs new Hrow _ IH]; cbn.
  - split; constructor.
  - destruct IH as (IHall & IHnames).
    destruct Hrow as (Hu & Hn & _ & _ & _ & Ht & Hb & _).
    split; [constructor; auto|congruence].
Qed.

Lemma map_fst_combine {A B : Type} (l : list A) (l' : list B) :
  List.length l = List.length l' -> map fst (combine l l') = l.
Proof.
  revert l'. induction l as [|a l IH]; intros [|b l']; cbn;
    try discriminate; try reflexivity.
  intros H. injection H as H. now rewrite IH.
Qed.

Lemma batch_inputs_names (ext : Collaborators) (df : DataFrame) :
  map fst (batch_inputs ext df) = names df.
Proof.
  unfold batch_inputs. apply map_fst_combine.
  rewrite !length_combine, !length_map.
  destruct df as [rows|rows]; cbn;
    rewrite ?length_map, ?repeat_length; lia.
Qed.

Lemma entry_names (inputs : list (NameCell * (Features * (Z * Q)))) :
  map e_name (map entry_of_input inputs) = map fst inputs.
Proof.
  induction inputs as [|[n [f [pred prob]]] inputs IH]; cbn;
    [reflexivity|now rewrite IH].
Qed.

Lemma all_of_repeat {A B : Type} (f : A -> B) (x : B) (l : list A) :
  forall n : nat, map f l = repeat x n -> Forall (fun a => f a = x) l.
Proof.
  induction l as [|a l IH]; intros [|n]; cbn; try discriminate.
  - intros _. constructor.
  - intros H. injection H as Ha Hl. constructor; [exact Ha|eapply IH, Hl].
Qed.

(** C2. A batch of N rows that the server accepts appends exactly N
    records to the table, in input order, each with the request's one
    [batch_id], the value [uuid4()] returned for this request; the
    response's [count] is N.  As long as [uuid4()] does not repeat a value,
    no record stored before carries that [batch_id], and no batch
    submitted at another draw of the random source gets it. *)
Theorem predict_batch_persists_every_row :
  forall (ext : Collaborators) (df : DataFrame) (current_user : User)
         (w : World),
    available w = true ->
    is_user (u_id current_user) (db w) = true ->
    ids_below_counter (db w) ->
    forallb (accepted ext (uuid_of_draw ext (draws w))) (batch_inputs ext df)
      = true ->
    exists (resp : BatchResponse) (new : list Prediction) (w' : World),
      predict_batch ext df current_user w = (Ok resp, w') /\
      b_batch_id resp = uuid_of_draw ext (draws w) /\
      count resp = List.length (df_for_prediction df) /\
      List.length (b_predictions resp) = List.length (df_for_prediction df) /\
      predictions (db w') = predictions (db w) ++ new /\
      List.length new = List.length (df_for_prediction df) /\
      Forall2 (persisted_as (u_id current_user) (b_batch_id resp) (clock w))
              (batch_inputs ext df) new /\
      Forall (fun r => batch_id r = Some (b_batch_id resp) /\
                       prediction_type r = "batch" /\
                       user_id r = u_id current_user) new /\
      (never_repeats ext ->
       batch_ids_drawn ext w ->
       Forall (fun r => batch_id r <> Some (b_batch_id resp))
              (predictions (db w)) /\
       batch_ids_drawn ext w') /\
      (never_repeats ext ->
       forall (df2 : DataFrame) (user2 : User) (w2 w2' : World)
              (resp2 : BatchResponse),
         draws w2 <> draws w ->
         predict_batch ext df2 user2 w2 = (Ok resp2, w2') ->
         b_batch_id resp2 <> b_batch_id resp).
Proof.
  intros ext df current_user w Hav Huser Hids Hacc.
  destruct (predict_batch_run ext df current_user w Hav Huser Hids Hacc)
    as (new & w' & Hrun & Hrows & Hall & Hdraws).
  destruct (persisted_as_batch _ _ _ _ _ Hall) as (Hbatch & _).
  pose proof (Forall2_length Hall) as Hlen.
  rewrite batch_inputs_length in Hlen.
  eexists; exists new, w'. split; [exact Hrun|].
  cbn [b_batch_id count b_predictions].
  rewrite length_map, batch_inputs_length.
  repeat match goal with |- _ /\ _ => split end; auto.
  - intros Hinj Hdrawn. unfold batch_ids_drawn in *. split.
    + eapply Forall_impl; [|exact Hdrawn]. cbn. intros r Hr Heq.
      destruct (Hr _ Heq) as (k & Hk & Hsame).
      apply Hinj in Hsame. lia.
    + rewrite Hrows, Hdraws. apply Forall_app. split.
      * eapply Forall_impl; [|exact Hdrawn]. cbn. intros r Hr b Hb.
        destruct (Hr _ Hb) as (k & Hk & Hsame).
        exists k. split; [lia|auto].
      * eapply Forall_impl; [|exact Hbatch]. cbn. intros r (Hb & _) b Hb'.
        exists (draws w). split; [lia|congruence].
  - intros Hinj df2 user2 w2 w2' resp2 Hother Hrun2 Heq.
    apply predict_batch_id in Hrun2. rewrite Hrun2 in Heq.
    apply Hinj in Heq. contradiction.
Qed.

(** C8, amended. A batch takes its names from the upload as a whole: when
    the table has no [name] column, every stored record and every response
    entry is named "Unknown"; when it has one, record and entry carry the
    row's cell as it is. *)
Theorem predict_batch_names_by_column :
  forall (ext : Collaborators) (df : DataFrame) (current_user : User)
         (w : World),
    available w = true ->
    is_user (u_id current_user) (db w) = true ->
    ids_below_counter (db w) ->
    forallb (accepted ext (uuid_of_draw ext (draws w))) (batch_inputs ext df)
      = true ->
    exists (resp : BatchResponse) (new : list Prediction) (w' : World),
      predict_batch ext df current_user w = (Ok resp, w') /\
      predictions (db w') = predictions (db w) ++ new /\
      match df with
      | FrameWithoutName rows =>
          List.length new = List.length rows /\
          List.length (b_predictions resp) = List.length rows /\
          Forall (fun r => p_name r = Some "Unknown") new /\
          Forall (fun e => e_name e = Text "Unknown") (b_predictions resp)
      | FrameWithName rows =>
          map p_name new = map stored_name (map fst rows) /\
          map e_name (b_predictions resp) = map fst rows
      end.
Proof.
  intros ext df current_user w Hav Huser Hids Hacc.
  destruct (predict_batch_run ext df current_user w Hav Huser Hids Hacc)
    as (new & w' & Hrun & Hrows & Hall & _).
  destruct (persisted_as_batch _ _ _ _ _ Hall) as (_ & Hnames).
  pose proof (Forall2_length Hall) as Hlen.
  rewrite batch_inputs_length in Hlen.
  rewrite batch_inputs_names in Hnames.
  eexists; exists new, w'. split; [exact Hrun|]. split; [exact Hrows|].
  cbn [b_predictions].
  pose proof (entry_names (batch_inputs ext df)) as Hentries.
  rewrite batch_inputs_names in Hentries.
  destruct df as [rows|rows]; cbn [names df_for_prediction] in *.
  - auto.
  - repeat split.
    + auto.
    + rewrite length_map, batch_inputs_length. reflexivity.
    + rewrite map_repeat in Hnames. eapply all_of_repeat; exact Hnames.
    + eapply all_of_repeat; exact Hentries.
Qed.

Lemma tally_inj (i j : nat) : tally i = tally j -> i = j.
Proof.
  revert j. induction i as [|i IH]; intros [|j]; cbn; try discriminate.
  - reflexivity.
  - intros H. injection H as H. f_equal. now apply IH.
Qed.

Lemma predict_batch_persists_every_row_witness :
  exists (resp : BatchResponse) (new : list Prediction) (w' : World),
    predict_batch sample_ext
      (FrameWithName [(Text "Bob", sample_features); (NaN, sample_features)])
      alice busy_world = (Ok resp, w') /\
    b_batch_id resp = tally 1 /\
    count resp = 2%nat /\
    predictions (db w') = predictions (db busy_world) ++ new /\
    List.length new = 2%nat /\
    Forall (fun r => batch_id r = Some (b_batch_id resp) /\
                     prediction_type r = "batch" /\
                     user_id r = u_id alice) new /\
    Forall (fun r => batch_id r <> Some (b_batch_id resp))
           (predictions (db busy_world)).
Proof.
  destruct (predict_batch_persists_every_row sample_ext
              (FrameWithName [(Text "Bob", sample_features);
                              (NaN, sample_features)])
              alice busy_world)
    as (resp & new & w' & Hrun & Hid & Hcount & _ & Hrows & Hlen & _
        & Hbatch & Hfresh & _).
  - reflexivity.
  - reflexivity.
  - repeat constructor.
  - vm_compute. reflexivity.
  - exists resp, new, w'. repeat split; auto.
    apply Hfresh.
    + intros i j. apply tally_inj.
    + repeat constructor; intros b Hb; simpl in Hb; try discriminate.
      injection Hb as <-. exists 0%nat. split; [simpl; lia|reflexivity].
Defined.

(** C2, as stated, fails: a batch of three rows whose second row the
    table refuses stores one record, not three, and raises instead of
    returning a response with a count.  The refusal is a credit score
    that [DECIMAL(5,2)] cannot hold, or, with a connector that sends NaN
    as the word nan, an empty [name] cell. *)
Lemma predict_batch_refused_row_stores_fewer :
  (exists w' : World,
      predict_batch sample_ext mixed_upload alice sample_world
        = (Raise (DataError "Out of range value for column"), w') /\
      List.length (df_for_prediction mixed_upload) = 3%nat /\
      predictions (db sample_world) = [] /\
      List.length (predictions (db w')) = 1%nat) /\
  (exists w' : World,
      predict_batch bare_nan_ext blank_name_upload alice sample_world
        = (Raise (ProgrammingError "Unknown column 'nan' in 'field list'"),
           w') /\
      List.length (df_for_prediction blank_name_upload) = 3%nat /\
      predictions (db sample_world) = [] /\
      List.length (predictions (db w')) = 1%nat).
Proof.
  split; eexists; (split; [vm_compute; reflexivity|]);
    repeat split; reflexivity.
Qed.

Lemma predict_batch_names_by_column_witness :
  exists (resp : BatchResponse) (new : list Prediction) (w' : World),
    predict_batch sample_ext
      (FrameWithoutName [sample_features; sample_features])
      alice sample_world = (Ok resp, w') /\
    predictions (db w') = predictions (db sample_world) ++ new /\
    List.length new = 2%nat /\
    List.length (b_predictions resp) = 2%nat /\
    Forall (fun r => p_name r = Some "Unknown") new /\
    Forall (fun e => e_name e = Text "Unknown") (b_predictions resp).
Proof.
  apply (predict_batch_names_by_column sample_ext
           (FrameWithoutName [sample_features; sample_features])
           alice sample_world).
  - reflexivity.
  - reflexivity.
  - constructor.
  - vm_compute. reflexivity.
Defined.

(** C8, as stated, fails: a row whose [name] cell is empty, in an upload
    that has the column, is never given "Unknown".  With a connector that
    sends NaN as NULL the record is stored without a name and the entry
    carries the NaN; with a connector that sends the word nan the insert
    is refused, nothing is stored and there is no response. *)
Lemma predict_batch_empty_name_cell_kept :
  (exists (resp : BatchResponse) (w' : World),
      predict_batch sample_ext (FrameWithName [(NaN, sample_features)])
                    alice sample_world = (Ok resp, w') /\
      map e_name (b_predictions resp) = [NaN] /\
      map p_name (predictions (db w')) = [None] /\
      ~ Forall (fun e => e_name e = Text "Unknown") (b_predictions resp) /\
      ~ Forall (fun r => p_name r = Some "Unknown") (predictions (db w')))
  /\
  (exists (w' : World),
      predict_batch bare_nan_ext (FrameWithName [(NaN, sample_features)])
                    alice sample_world
        = (Raise (ProgrammingError "Unknown column 'nan' in 'field list'"),
           w') /\
      predictions (db w') = []).
Proof.
  split.
  - do 2 eexists. split; [vm_compute; reflexivity|].
    split; [reflexivity|]. split; [reflexivity|].
    split; intros H; inversion H; discriminate.
  - eexists. split; [vm_compute; reflexivity|reflexivity].
Qed.

(** * Further properties of the service *)

(** ** The pool *)

(** X1. The first scope on a service whose pool does not exist yet, with
    the server up, creates the pool of five connections, then runs like
    any other scope: the body's result is returned and committed, and all
    five connections are free afterwards. *)
Theorem get_db_creates_pool_on_first_use :
  forall (A : Type) (body : Cursor A) (w : World) (a : A) (d' : Database),
    connection_pool w = None ->
    server_up w = true ->
    body (clock w) (db w) = (Ok a, d') ->
    fst (get_db body w) = Ok a /\
    connection_pool (snd (get_db body w)) = Some (mkPool 5 0) /\
    db (snd (get_db body w)) = d' /\
    trace (snd (get_db body w))
      = trace w ++ EvInitPool true :: committed_scope.
Proof.
  intros A body w a d' Hnone Hup Hbody.
  unfold get_db, ensure_pool, init_connection_pool.
  rewrite Hnone, Hup. cbn. rewrite Hbody. cbn.
  rewrite <- !app_assoc. auto.
Qed.

Lemma get_db_creates_pool_on_first_use_witness :
  fst (get_db (fun _ d => (Ok (List.length (users d)), d)) fresh_world)
    = Ok 1%nat /\
  connection_pool
    (snd (get_db (fun _ d => (Ok (List.length (users d)), d)) fresh_world))
    = Some (mkPool 5 0) /\
  db (snd (get_db (fun _ d => (Ok (List.length (users d)), d)) fresh_world))
    = sample_db /\
  trace (snd (get_db (fun _ d => (Ok (List.length (users d)), d)) fresh_world))
    = [] ++ EvInitPool true :: committed_scope.
Proof.
  apply (get_db_creates_pool_on_first_use nat
           (fun _ d => (Ok (List.length (users d)), d)) fresh_world
           1%nat sample_db); reflexivity.
Defined.

(** A scope that raises, for whatever reason, leaves both tables as they
    were. *)
Lemma get_db_raise_keeps_tables {A : Type} (body : Cursor A) (w : World)
    (e : exn) :
  fst (get_db body w) = Raise e ->
  users (db (snd (get_db body w))) = users (db w) /\
  predictions (db (snd (get_db body w))) = predictions (db w).
Proof.
  destruct (ensure_pool_same w) as (_ & Hdb & Hclock & _).
  unfold get_db.
  destruct (connection_pool (ensure_pool w)) as [p|];
    [|cbn; rewrite Hdb; auto].
  destruct (checked_out p <? pool_size p)%nat; [|cbn; rewrite Hdb; auto].
  cbn [emit set_pool clock db]. rewrite Hdb, Hclock.
  destruct (body (clock w) (db w)) as [[a|e'] d']; cbn; [discriminate|auto].
Qed.

(** A scope that returns had a handle. *)
Lemma get_db_ok_available {A : Type} (body : Cursor A) (w : World) (a : A) :
  fst (get_db body w) = Ok a -> available w = true.
Proof.
  destruct (available w) eqn:Hav; [reflexivity|].
  destruct (get_db_unavailable w Hav) as (e & w' & Hfail).
  rewrite Hfail. discriminate.
Qed.

(** ** Passwords *)

(** X2. A password verifies against the hash [hash_password] makes of it,
    whenever the hash could be made (the salt has its 22 characters). *)
Theorem verify_password_of_hash_password :
  forall (ext : Collaborators) (password hashed : string) (w : World),
    fst (hash_password ext password w) = Ok hashed ->
    verify_password ext password hashed = Ok true /\
    draws (snd (hash_password ext password w)) = S (draws w) /\
    db (snd (hash_password ext password w)) = db w.
Proof.
  intros ext password hashed w. unfold hash_password, sbind, gensalt, lift.
  cbn. intros Hhash. split; [|auto].
  unfold verify_password. eapply checkpw_of_hashpw. exact Hhash.
Qed.

Lemma verify_password_of_hash_password_witness :
  verify_password sample_ext "pw123"
    "$2b$12$abcdefghijklmnopqrstuvdigest:pw123" = Ok true /\
  draws (snd (hash_password sample_ext "pw123" sample_world)) = 1%nat /\
  db (snd (hash_password sample_ext "pw123" sample_world)) = sample_db.
Proof.
  apply (verify_password_of_hash_password sample_ext "pw123" _ sample_world).
  reflexivity.
Defined.

(** ** The user registry *)

Lemma existsb_of_zero_count {A : Type} (f : A -> bool) (l : list A) :
  List.length (filter f l) = 0%nat -> existsb f l = false.
Proof.
  induction l as [|a l IH]; cbn; [reflexivity|].
  destruct (f a); cbn; [discriminate|exact IH].
Qed.

Lemma positive_count_of_existsb {A : Type} (f : A -> bool) (l : list A) :
  (0 < List.length (filter f l))%nat -> existsb f l = true.
Proof.
  induction l as [|a l IH]; cbn; [lia|].
  destruct (f a); cbn; [reflexivity|exact IH].
Qed.

Lemma find_none_of_existsb {A : Type} (f : A -> bool) (l : list A) :
  existsb f l = false -> find f l = None.
Proof.
  induction l as [|a l IH]; cbn; [reflexivity|].
  destruct (f a); cbn; [discriminate|exact IH].
Qed.

Lemma find_same {A : Type} (f g : A -> bool) (l : list A) :
  (forall a, f a = g a) -> find f l = find g l.
Proof.
  intros Hfg. induction l as [|a l IH]; cbn; [reflexivity|].
  rewrite Hfg, IH. reflexivity.
Qed.

Lemma fresh_user_key (d : Database) :
  user_ids_below_counter d ->
  existsb (fun u => u_id u =? users_auto_increment d) (users d) = false.
Proof.
  unfold user_ids_below_counter. induction 1 as [|u l Hu _ IH]; cbn.
  - reflexivity.
  - rewrite IH, orb_false_r. apply Z.eqb_neq. lia.
Qed.

(** What the insert of a user does: it is refused and changes nothing, or
    it appends the row under the next key, which only happens when neither
    UNIQUE key is taken. *)
Lemma insert_user_cases (ext : Collaborators)
    (username0 email0 hashed_pw : string) (now : Z) (d : Database) :
  (exists e, insert_user ext username0 email0 hashed_pw now d = (Raise e, d))
  \/
  (insert_user ext username0 email0 hashed_pw now d
     = (Ok (users_auto_increment d),
        mkDatabase
          (users d ++ [mkUser (users_auto_increment d) username0 email0
                              hashed_pw now])
          (predictions d) (users_auto_increment d + 1)
          (predictions_auto_increment d)) /\
   existsb (fun u => same_text ext (username u) username0) (users d) = false
   /\
   existsb (fun u => same_text ext (email u) email0) (users d) = false).
Proof.
  unfold insert_user.
  destruct (store_varchar 255 username0) as [a|] eqn:Ea; cbn; [|eauto].
  destruct (store_varchar 255 email0) as [b|] eqn:Eb; cbn; [|eauto].
  destruct (store_varchar 255 hashed_pw) as [c|] eqn:Ec; cbn; [|eauto].
  apply store_varchar_ok in Ea, Eb, Ec. subst a b c.
  destruct (existsb (fun u => same_text ext (username u) username0) (users d));
    [eauto|].
  destruct (existsb (fun u => same_text ext (email u) email0) (users d));
    [eauto|].
  destruct (existsb (fun u => u_id u =? users_auto_increment d) (users d));
    [eauto|].
  right. auto.
Qed.

(** The insert of a user whose keys are free and whose values fit. *)
Lemma insert_user_accepted (ext : Collaborators)
    (username0 email0 hashed_pw : string) (now : Z) (d : Database) :
  (String.length username0 <= 255)%nat ->
  (String.length email0 <= 255)%nat ->
  (String.length hashed_pw <= 255)%nat ->
  username_count ext username0 d = 0%nat ->
  email_count ext email0 d = 0%nat ->
  user_ids_below_counter d ->
  insert_user ext username0 email0 hashed_pw now d
  = (Ok (users_auto_increment d),
     mkDatabase
       (users d ++ [mkUser (users_auto_increment d) username0 email0
                           hashed_pw now])
       (predictions d) (users_auto_increment d + 1)
       (predictions_auto_increment d)).
Proof.
  intros Hu He Hh Hname Hemail Hids. unfold insert_user, store_varchar.
  apply Nat.leb_le in Hu, He, Hh. rewrite Hu, He, Hh. cbn.
  rewrite (existsb_of_zero_count _ _ Hname).
  rewrite (existsb_of_zero_count _ _ Hemail).
  rewrite (fresh_user_key _ Hids). reflexivity.
Qed.

Lemma same_text_refl (ext : Collaborators) (a : string) :
  same_text ext a a = true.
Proof. unfold same_text. apply String.eqb_refl. Qed.

(** [create_user] with free keys and values that fit. *)
Lemma create_user_run (ext : Collaborators)
    (username0 email0 password hashed : string) (w : World) :
  available w = true ->
  fst (hash_password ext password w) = Ok hashed ->
  (String.length username0 <= 255)%nat ->
  (String.length email0 <= 255)%nat ->
  (String.length hashed <= 255)%nat ->
  username_count ext username0 (db w) = 0%nat ->
  email_count ext email0 (db w) = 0%nat ->
  user_ids_below_counter (db w) ->
  let row := mkUser (users_auto_increment (db w)) username0 email0 hashed
                    (clock w) in
  exists w',
    create_user ext username0 email0 password w
      = (Ok (mkUserDict (users_auto_increment (db w)) username0 email0
                        hashed), w') /\
    users (db w') = users (db w) ++ [row] /\
    predictions (db w') = predictions (db w) /\
    users_auto_increment (db w') = users_auto_increment (db w) + 1 /\
    available w' = true /\ clock w' = clock w /\ draws w' = S (draws w).
Proof.
  intros Hav Hhash Hu He Hh Hname Hemail Hids row.
  assert (Hhashed : hash_password ext password w
                    = (Ok hashed, set_draws w (S (draws w)))).
  { unfold hash_password, sbind, gensalt, lift in *. cbn in *.
    now rewrite Hhash. }
  unfold create_user, sbind. rewrite Hhashed.
  match goal with
  | |- exists w', get_db ?body ?w1 = _ /\ _ =>
      assert (Hav1 : available w1 = true)
        by (rewrite <- Hav; apply available_set_draws);
      destruct (get_db_run body w1 Hav1)
        as (w' & Hrun & Hav' & Hc & Hd & Hdb);
      assert (Hbody :
        body (clock w1) (db w1)
        = (Ok (mkUserDict (users_auto_increment (db w)) username0 email0
                          hashed),
           mkDatabase (users (db w) ++ [row]) (predictions (db w))
                      (users_auto_increment (db w) + 1)
                      (predictions_auto_increment (db w))))
  end.
  { unfold cbind. cbn [clock db set_draws].
    rewrite (insert_user_accepted ext _ _ _ (clock w) (db w)
               Hu He Hh Hname Hemail Hids).
    reflexivity. }
  rewrite Hbody in Hrun, Hdb. cbn [fst] in Hrun.
  exists w'. rewrite Hrun, Hdb. cbn in *. repeat split; auto.
Qed.

(** X3. [create_user] with a username and an email that nobody has stores
    one row, under the next key and with the hash of the password, and
    both lookups find that row afterwards; the password verifies against
    the stored hash. *)
Theorem create_user_then_lookup :
  forall (ext : Collaborators) (username0 email0 password hashed : string)
         (w : World),
    available w = true ->
    fst (hash_password ext password w) = Ok hashed ->
    (String.length username0 <= 255)%nat ->
    (String.length email0 <= 255)%nat ->
    (String.length hashed <= 255)%nat ->
    username_count ext username0 (db w) = 0%nat ->
    email_count ext email0 (db w) = 0%nat ->
    user_ids_below_counter (db w) ->
    let row := mkUser (users_auto_increment (db w)) username0 email0 hashed
                      (clock w) in
    exists w',
      create_user ext username0 email0 password w
        = (Ok (mkUserDict (users_auto_increment (db w)) username0 email0
                          hashed), w') /\
      users (db w') = users (db w) ++ [row] /\
      fst (get_user_by_username ext username0 w') = Ok (Some row) /\
      fst (get_user_by_email ext email0 w') = Ok (Some row) /\
      verify_password ext password hashed = Ok true.
Proof.
  intros ext username0 email0 password hashed w
         Hav Hhash Hu He Hh Hname Hemail Hids row.
  destruct (create_user_run ext username0 email0 password hashed w
              Hav Hhash Hu He Hh Hname Hemail Hids)
    as (w' & Hrun & Husers & _ & _ & Hav' & _ & _).
  exists w'. split; [exact Hrun|]. split; [exact Husers|].
  destruct (get_db_read w' Hav') as (w2 & Hread & _).
  unfold get_user_by_username, get_user_by_email.
  rewrite !Hread, Husers. cbn [fst].
  rewrite !find_after_fresh;
    try (apply existsb_of_zero_count; assumption);
    try (cbn; apply same_text_refl).
  repeat split.
  unfold hash_password, sbind, gensalt, lift in Hhash. cbn in Hhash.
  unfold verify_password. eapply checkpw_of_hashpw. exact Hhash.
Qed.

Lemma create_user_then_lookup_witness :
  let row := mkUser 2 "bob" "bob@x.com"
                    "$2b$12$abcdefghijklmnopqrstuvdigest:hunter2" 1000 in
  exists w',
    create_user sample_ext "bob" "bob@x.com" "hunter2" sample_world
      = (Ok (mkUserDict 2 "bob" "bob@x.com"
                        "$2b$12$abcdefghijklmnopqrstuvdigest:hunter2"), w') /\
    users (db w') = users (db sample_world) ++ [row] /\
    fst (get_user_by_username sample_ext "bob" w') = Ok (Some row) /\
    fst (get_user_by_email sample_ext "bob@x.com" w') = Ok (Some row) /\
    verify_password sample_ext "hunter2"
      "$2b$12$abcdefghijklmnopqrstuvdigest:hunter2" = Ok true.
Proof.
  apply (create_user_then_lookup sample_ext "bob" "bob@x.com" "hunter2"
           "$2b$12$abcdefghijklmnopqrstuvdigest:hunter2" sample_world);
    try reflexivity; try (simpl; lia).
  repeat constructor.
Defined.

Lemma not_in_keys {A : Type} (key : A -> string) (l : list A) (k : string) :
  existsb (fun a => String.eqb (key a) k) l = false -> ~ In k (map key l).
Proof.
  induction l as [|a l IH]; cbn; [tauto|].
  intros H. apply orb_false_iff in H. destruct H as (Ha & Hl).
  intros [Heq|Hin]; [|now apply IH].
  apply String.eqb_neq in Ha. congruence.
Qed.

Lemma unique_keys_after_insert {A : Type} (key : A -> string) (l : list A)
    (x : A) :
  NoDup (map key l) ->
  existsb (fun a => String.eqb (key a) (key x)) l = false ->
  NoDup (map key (l ++ [x])).
Proof.
  intros Hnodup Hfresh. rewrite map_app. cbn.
  eapply Permutation_NoDup; [apply Permutation_cons_append|].
  constructor; [now apply not_in_keys|exact Hnodup].
Qed.

(** X4. [create_user] keeps the two UNIQUE keys of [users] unique,
    whatever it is given and whether it returns or raises: no call leaves
    two users with usernames, or emails, that the server takes for the
    same. *)
Theorem create_user_keeps_keys_unique :
  forall (ext : Collaborators) (username0 email0 password : string)
         (w : World),
    users_unique ext (db w) ->
    users_unique ext (db (snd (create_user ext username0 email0 password w))).
Proof.
  intros ext username0 email0 password w Huniq.
  unfold create_user, sbind.
  destruct (hash_password ext password w) as [[hashed|e] w1] eqn:Hhash.
  2:{ unfold hash_password, sbind, gensalt, lift in Hhash. cbn in Hhash.
      injection Hhash as _ <-. exact Huniq. }
  assert (Hdb1 : db w1 = db w).
  { unfold hash_password, sbind, gensalt, lift in Hhash. cbn in Hhash.
    injection Hhash as _ <-. reflexivity. }
  match goal with
  | |- users_unique ext (db (snd (get_db ?body w1))) =>
      destruct (fst (get_db body w1)) as [ud|e] eqn:Hres;
      [pose proof (get_db_ok_available body w1 ud Hres) as Hav1;
       destruct (get_db_run body w1 Hav1) as (w' & Hrun & _ & _ & _ & Hdb);
       rewrite Hrun in Hres |- *
      |destruct (get_db_raise_keeps_tables body w1 e Hres) as (Husers & _)]
  end.
  - cbn [snd fst] in *. unfold cbind in Hres, Hdb. rewrite Hdb1 in *.
    destruct (insert_user_cases ext username0 email0 hashed (clock w1) (db w))
      as [(e & Hins)|(Hins & Hname & Hemail)];
      rewrite Hins in Hres, Hdb; cbn in Hres, Hdb; [discriminate|].
    unfold users_unique. rewrite Hdb. cbn [users].
    destruct Huniq as (Hn & He). split.
    + apply (unique_keys_after_insert
               (fun u => collate ext (username u))); assumption.
    + apply (unique_keys_after_insert
               (fun u => collate ext (email u))); assumption.
  - unfold users_unique in *. rewrite Husers, Hdb1. exact Huniq.
Qed.

Lemma create_user_keeps_keys_unique_witness :
  users_unique sample_ext
    (db (snd (create_user sample_ext "alice" "other@x.com" "pw" sample_world))).
Proof.
  apply (create_user_keeps_keys_unique sample_ext "alice" "other@x.com" "pw"
           sample_world).
  split; (constructor; [intros []|constructor]).
Defined.

(** X5. The table itself refuses a second user with a taken username or
    email: [create_user] called without the handler's prior check raises
    the server's [IntegrityError], and the scope's rollback leaves both
    tables as they were. *)
Theorem create_user_duplicate_refused :
  forall (ext : Collaborators) (username0 email0 password hashed : string)
         (w : World),
    available w = true ->
    fst (hash_password ext password w) = Ok hashed ->
    (String.length username0 <= 255)%nat ->
    (String.length email0 <= 255)%nat ->
    (String.length hashed <= 255)%nat ->
    (0 < username_count ext username0 (db w))%nat \/
    (0 < email_count ext email0 (db w))%nat ->
    let w' := snd (create_user ext username0 email0 password w) in
    (fst (create_user ext username0 email0 password w)
       = Raise (IntegrityError "Duplicate entry for key 'username'") \/
     fst (create_user ext username0 email0 password w)
       = Raise (IntegrityError "Duplicate entry for key 'email'")) /\
    users (db w') = users (db w) /\
    predictions (db w') = predictions (db w).
Proof.
  intros ext username0 email0 password hashed w Hav Hhash Hu He Hh Hdup.
  assert (Hhashed : hash_password ext password w
                    = (Ok hashed, set_draws w (S (draws w)))).
  { unfold hash_password, sbind, gensalt, lift in *. cbn in *.
    now rewrite Hhash. }
  unfold create_user, sbind. rewrite Hhashed. cbv beta iota zeta.
  match goal with
  | |- _ /\ users (db (snd (get_db ?body ?w1))) = _ /\ _ =>
      assert (Hav1 : available w1 = true)
        by (rewrite <- Hav; apply available_set_draws);
      destruct (get_db_run body w1 Hav1)
        as (w' & Hrun & _ & _ & _ & Hdb);
      assert (Hbody :
        body (clock w1) (db w1)
          = (Raise (IntegrityError "Duplicate entry for key 'username'"),
             db w) \/
        body (clock w1) (db w1)
          = (Raise (IntegrityError "Duplicate entry for key 'email'"), db w))
  end.
  { unfold cbind, insert_user, store_varchar. cbn [clock db set_draws].
    apply Nat.leb_le in Hu, He, Hh. rewrite Hu, He, Hh. cbn.
    destruct (existsb (fun u => same_text ext (username u) username0)
                      (users (db w))) eqn:Hname; [now left|].
    destruct Hdup as [Hdup|Hdup]; apply positive_count_of_existsb in Hdup.
    - congruence.
    - rewrite Hdup. now right. }
  rewrite Hrun. cbn [fst snd]. rewrite Hdb.
  destruct Hbody as [Hbody|Hbody]; rewrite Hbody; cbn; auto.
Qed.

Lemma create_user_duplicate_refused_witness :
  let w' := snd (create_user sample_ext "alice" "other@x.com" "pw"
                             sample_world) in
  (fst (create_user sample_ext "alice" "other@x.com" "pw" sample_world)
     = Raise (IntegrityError "Duplicate entry for key 'username'") \/
   fst (create_user sample_ext "alice" "other@x.com" "pw" sample_world)
     = Raise (IntegrityError "Duplicate entry for key 'email'")) /\
  users (db w') = users (db sample_world) /\
  predictions (db w') = predictions (db sample_world).
Proof.
  apply (create_user_duplicate_refused sample_ext "alice" "other@x.com" "pw"
           "$2b$12$abcdefghijklmnopqrstuvdigest:pw" sample_world);
    try reflexivity; try (simpl; lia).
  left. cbn. lia.
Defined.

(** ** Registration, login and the bearer token *)

Lemma hash_password_by_draws (ext : Collaborators) (password : string)
    (w1 w2 : World) :
  draws w1 = draws w2 ->
  fst (hash_password ext password w1) = fst (hash_password ext password w2).
Proof.
  intros Hd. unfold hash_password, sbind, gensalt, lift. cbn.
  now rewrite Hd.
Qed.

Lemma count_after_insert {A : Type} (f : A -> bool) (l : list A) (x : A) :
  List.length (filter f l) = 0%nat -> f x = true ->
  List.length (filter f (l ++ [x])) = 1%nat.
Proof.
  intros Hzero Hx. rewrite filter_app, length_app, Hzero. cbn.
  now rewrite Hx.
Qed.

(** What a [login] that returns has checked and what it hands out. *)
Lemma login_ok_inv (ext : Collaborators) (username0 password : string)
    (w w1 : World) (resp : TokenResponse) :
  login ext username0 password w = (Ok resp, w1) ->
  exists u,
    find (fun x => same_text ext (username x) username0) (users (db w))
      = Some u /\
    verify_password ext password (hashed_password u) = Ok true /\
    resp = mkTokenResponse
             (jwt_encode ext (mkClaims (Some (username u))
                                       (Some (clock w + 86400)))
                         SECRET_KEY)
             "bearer" /\
    db w1 = db w.
Proof.
  unfold login, sbind, get_user_by_username.
  destruct (available w) eqn:Hav.
  - destruct (get_db_read w Hav) as (w' & Hread & _ & Hclock & _ & Hdb).
    rewrite Hread.
    destruct (find (fun x => same_text ext (username x) username0)
                   (users (db w))) as [u|]; [|discriminate].
    unfold lift.
    destruct (verify_password ext password (hashed_password u))
      as [[|]|e] eqn:Hverify; cbn; try discriminate.
    intros H. injection H as <- <-. exists u.
    unfold ACCESS_TOKEN_EXPIRE_MINUTES. rewrite Hclock.
    repeat split; auto.
  - destruct (get_db_unavailable w Hav) as (e & w' & Hfail).
    rewrite Hfail. discriminate.
Qed.

(** X6. [register] with a username and an email that nobody has creates
    the user, exactly one row for that username, and answers with a bearer
    token that decodes to the username and expires 24 hours later; a
    [login] with the same password then returns a token as well. *)
Theorem register_then_login :
  forall (ext : Collaborators) (username0 email0 password hashed : string)
         (w : World),
    available w = true ->
    fst (hash_password ext password w) = Ok hashed ->
    (String.length username0 <= 255)%nat ->
    (String.length email0 <= 255)%nat ->
    (String.length hashed <= 255)%nat ->
    username_count ext username0 (db w) = 0%nat ->
    email_count ext email0 (db w) = 0%nat ->
    user_ids_below_counter (db w) ->
    exists (tok : Token) (w' : World),
      register ext username0 email0 password w
        = (Ok (mkTokenResponse tok "bearer"), w') /\
      jwt_decode ext tok SECRET_KEY (clock w')
        = inr (mkClaims (Some username0) (Some (clock w + 86400))) /\
      users (db w')
        = users (db w)
            ++ [mkUser (users_auto_increment (db w)) username0 email0 hashed
                       (clock w)] /\
      username_count ext username0 (db w') = 1%nat /\
      fst (login ext username0 password w')
        = Ok (mkTokenResponse tok "bearer").
Proof.
  intros ext username0 email0 password hashed w
         Hav Hhash Hu He Hh Hname Hemail Hids.
  destruct (get_db_read w Hav) as (w1 & Hread1 & Hav1 & Hc1 & Hd1 & Hdb1).
  destruct (get_db_read w1 Hav1) as (w2 & Hread2 & Hav2 & Hc2 & Hd2 & Hdb2).
  assert (Hdb : db w2 = db w) by congruence.
  assert (Hhash2 : fst (hash_password ext password w2) = Ok hashed).
  { rewrite <- Hhash. apply hash_password_by_draws. congruence. }
  destruct (create_user_run ext username0 email0 password hashed w2
              Hav2 Hhash2 Hu He Hh)
    as (w3 & Hrun & Husers & _ & _ & Hav3 & Hc3 & _);
    try (rewrite Hdb; assumption).
  rewrite Hdb in Hrun, Husers. rewrite Hc2, Hc1 in Husers.
  assert (Hclock : clock w3 = clock w) by congruence.
  do 2 eexists.
  split.
  { unfold register, sbind, get_user_by_username, get_user_by_email.
    rewrite Hread1.
    rewrite (find_none_of_existsb _ _ (existsb_of_zero_count _ _ Hname)).
    rewrite Hread2, Hdb1.
    rewrite (find_none_of_existsb _ _ (existsb_of_zero_count _ _ Hemail)).
    rewrite Hrun. cbn. reflexivity. }
  rewrite ?Hclock.
  split.
  { unfold jwt_decode, jwt_encode, ACCESS_TOKEN_EXPIRE_MINUTES.
    rewrite String.eqb_refl. cbn [exp].
    match goal with
    | |- context [?a <=? ?b] => destruct (Z.leb_spec a b)
    end; [lia|reflexivity]. }
  split; [exact Husers|].
  split.
  { unfold username_count in *. rewrite Husers.
    apply count_after_insert; [exact Hname|apply same_text_refl]. }
  destruct (get_db_read w3 Hav3) as (w4 & Hread4 & _ & Hc4 & _ & _).
  unfold login, sbind, get_user_by_username. rewrite Hread4, Husers.
  rewrite find_after_fresh;
    [|apply existsb_of_zero_count; exact Hname|apply same_text_refl].
  unfold lift. cbn [hashed_password username].
  assert (Hverify : verify_password ext password hashed = Ok true).
  { unfold hash_password, sbind, gensalt, lift in Hhash. cbn in Hhash.
    unfold verify_password. eapply checkpw_of_hashpw. exact Hhash. }
  rewrite Hverify. cbn. rewrite Hc4, Hclock. reflexivity.
Qed.

Lemma register_then_login_witness :
  exists (tok : Token) (w' : World),
    register sample_ext "bob" "bob@x.com" "hunter2" sample_world
      = (Ok (mkTokenResponse tok "bearer"), w') /\
    jwt_decode sample_ext tok SECRET_KEY (clock w')
      = inr (mkClaims (Some "bob") (Some (clock sample_world + 86400))) /\
    users (db w')
      = users (db sample_world)
          ++ [mkUser 2 "bob" "bob@x.com"
                     "$2b$12$abcdefghijklmnopqrstuvdigest:hunter2" 1000] /\
    username_count sample_ext "bob" (db w') = 1%nat /\
    fst (login sample_ext "bob" "hunter2" w')
      = Ok (mkTokenResponse tok "bearer").
Proof.
  apply (register_then_login sample_ext "bob" "bob@x.com" "hunter2"
           "$2b$12$abcdefghijklmnopqrstuvdigest:hunter2" sample_world);
    try reflexivity; try (simpl; lia).
  repeat constructor.
Defined.

(** X7. A token that [login] returned authenticates, for the next 24
    hours and as long as the users are the same, as the stored user whose
    password [login] verified; [login] itself writes nothing. *)
Theorem login_token_authenticates :
  forall (ext : Collaborators) (username0 password : string)
         (w w1 w2 : World) (resp : TokenResponse),
    login ext username0 password w = (Ok resp, w1) ->
    available w2 = true ->
    users (db w2) = users (db w1) ->
    clock w2 < clock w + 86400 ->
    exists u : User,
      fst (get_current_user ext (access_token resp) w2) = Ok u /\
      In u (users (db w)) /\
      same_text ext (username u) username0 = true /\
      verify_password ext password (hashed_password u) = Ok true /\
      db w1 = db w.
Proof.
  intros ext username0 password w w1 w2 resp Hlogin Hav2 Husers Hfresh.
  destruct (login_ok_inv ext username0 password w w1 resp Hlogin)
    as (u & Hfind & Hverify & -> & Hdb).
  exists u. destruct (find_some _ _ Hfind) as (Hin & Hsame).
  split; [|auto].
  unfold get_current_user, sbind, decode_token, jwt_decode, jwt_encode.
  cbn [access_token]. rewrite String.eqb_refl. cbn [exp].
  match goal with
  | |- context [?a <=? ?b] => destruct (Z.leb_spec a b)
  end; [lia|]. cbn [sub].
  destruct (get_db_read w2 Hav2) as (w3 & Hread & _).
  unfold get_user_by_username. rewrite Hread, Husers, Hdb.
  rewrite (find_same _ (fun x => same_text ext (username x) username0)).
  - rewrite Hfind. reflexivity.
  - intros x. unfold same_text in *. apply String.eqb_eq in Hsame.
    now rewrite Hsame.
Qed.

Lemma login_token_authenticates_witness :
  exists u : User,
    fst (get_current_user sample_ext
           (access_token
              (mkTokenResponse
                 (jwt_encode sample_ext
                    (mkClaims (Some "alice") (Some 87400)) SECRET_KEY)
                 "bearer"))
           sample_world) = Ok u /\
    In u (users (db sample_world)) /\
    same_text sample_ext (username u) "alice" = true /\
    verify_password sample_ext "pw123" (hashed_password u) = Ok true /\
    db (snd (login sample_ext "alice" "pw123" sample_world)) = db sample_world.
Proof.
  apply (login_token_authenticates sample_ext "alice" "pw123"
           sample_world (snd (login sample_ext "alice" "pw123" sample_world))
           sample_world).
  - reflexivity.
  - reflexivity.
  - reflexivity.
  - simpl. lia.
Defined.

(** X8. [get_current_user] returns a user only for a token that carries a
    signature made with the server's key, that has not expired, and whose
    subject is the username of that user, a row of the table; resolving a
    token writes nothing. *)
Theorem get_current_user_sound :
  forall (ext : Collaborators) (token : Token) (w w' : World) (u : User),
    get_current_user ext token w = (Ok u, w') ->
    exists (claims : Claims) (signature username0 : string),
      token = Signed claims signature /\
      signature = hs256 ext SECRET_KEY claims /\
      (forall e, exp claims = Some e -> clock w < e) /\
      sub claims = Some username0 /\
      In u (users (db w)) /\
      same_text ext (username u) username0 = true /\
      db w' = db w.
Proof.
  intros ext token w w' u.
  unfold get_current_user, sbind, decode_token, jwt_decode.
  destruct token as [raw|claims signature]; [discriminate|].
  destruct (String.eqb_spec signature (hs256 ext SECRET_KEY claims))
    as [Hsig|_]; [|discriminate].
  assert (Hexp : (forall e, exp claims = Some e -> clock w < e) \/
                 exists e, exp claims = Some e /\ e <= clock w).
  { destruct (exp claims) as [e|]; [|left; discriminate].
    destruct (Z.leb_spec e (clock w)); [right; eauto|].
    left. intros e' He'. injection He' as <-. assumption. }
  destruct Hexp as [Hexp|(e & He & Hle)].
  2:{ rewrite He. apply Z.leb_le in Hle. rewrite Hle. discriminate. }
  assert (Hdecoded :
    match exp claims with
    | Some e => if e <=? clock w then inl ExpiredSignatureError
                else inr claims
    | None => inr claims
    end = inr claims).
  { destruct (exp claims) as [e|] eqn:He; [|reflexivity].
    specialize (Hexp e eq_refl).
    destruct (Z.leb_spec e (clock w)); [lia|reflexivity]. }
  rewrite Hdecoded.
  destruct (sub claims) as [username0|] eqn:Hsub; [|discriminate].
  unfold get_user_by_username.
  destruct (available w) eqn:Hav.
  - destruct (get_db_read w Hav) as (w1 & Hread & _ & _ & _ & Hdb).
    rewrite Hread.
    destruct (find (fun x => same_text ext (username x) username0)
                   (users (db w))) as [u'|] eqn:Hfind; [|discriminate].
    cbn. intros H. injection H as <- <-.
    destruct (find_some _ _ Hfind) as (Hin & Hsame).
    exists claims, signature, username0. repeat split; auto.
  - destruct (get_db_unavailable w Hav) as (e & w1 & Hfail).
    rewrite Hfail. discriminate.
Qed.

Lemma get_current_user_sound_witness :
  exists (claims : Claims) (signature username0 : string),
    jwt_encode sample_ext (mkClaims (Some "alice") (Some 87400)) SECRET_KEY
      = Signed claims signature /\
    signature = hs256 sample_ext SECRET_KEY claims /\
    (forall e, exp claims = Some e -> clock sample_world < e) /\
    sub claims = Some username0 /\
    In alice (users (db sample_world)) /\
    same_text sample_ext (username alice) username0 = true /\
    db (snd (get_current_user sample_ext
               (jwt_encode sample_ext
                  (mkClaims (Some "alice") (Some 87400)) SECRET_KEY)
               sample_world)) = db sample_world.
Proof.
  apply (get_current_user_sound sample_ext
           (jwt_encode sample_ext (mkClaims (Some "alice") (Some 87400))
                       SECRET_KEY)
           sample_world).
  reflexivity.
Defined.

(** X9. A token that [jwt.decode] refuses (unparsable, wrong signature or
    expired) is answered with 401 before any database access: the world,
    trace included, is left exactly as it was, also when no connection
    could be had. *)
Theorem get_current_user_rejects_before_lookup :
  forall (ext : Collaborators) (token : Token) (w : World)
         (err : PyJWTError),
    jwt_decode ext token SECRET_KEY (clock w) = inl err ->
    get_current_user ext token w
      = (Raise (HTTPException 401
                  (match err with
                   | ExpiredSignatureError => "Token expired"
                   | _ => "Invalid token"
                   end)), w).
Proof.
  intros ext token w err Hdecode.
  unfold get_current_user, sbind, decode_token. rewrite Hdecode.
  destruct err; reflexivity.
Qed.

Lemma get_current_user_rejects_before_lookup_witness :
  get_current_user sample_ext (Garbage "not.a.token") down_world
    = (Raise (HTTPException 401 "Invalid token"), down_world).
Proof.
  apply (get_current_user_rejects_before_lookup sample_ext
           (Garbage "not.a.token") down_world DecodeError).
  reflexivity.
Defined.

(** X10. A token outlives neither its subject nor a missing subject: a
    valid token without [sub] is answered 401 "Invalid token" without a
    lookup, and a valid token whose subject is no stored username is
    answered 401 "User not found", with the tables unchanged. *)
Theorem get_current_user_unknown_subject :
  forall (ext : Collaborators) (token : Token) (w : World) (claims : Claims),
    available w = true ->
    jwt_decode ext token SECRET_KEY (clock w) = inr claims ->
    match sub claims with
    | None =>
        get_current_user ext token w
          = (Raise (HTTPException 401 "Invalid token"), w)
    | Some username0 =>
        username_count ext username0 (db w) = 0%nat ->
        fst (get_current_user ext token w)
          = Raise (HTTPException 401 "User not found") /\
        db (snd (get_current_user ext token w)) = db w
    end.
Proof.
  intros ext token w claims Hav Hdecode.
  unfold get_current_user, sbind, decode_token. rewrite Hdecode.
  destruct (sub claims) as [username0|]; [|reflexivity].
  intros Hnone. unfold get_user_by_username.
  destruct (get_db_read w Hav) as (w1 & Hread & _ & _ & _ & Hdb).
  rewrite Hread.
  rewrite (find_none_of_existsb _ _ (existsb_of_zero_count _ _ Hnone)).
  cbn. auto.
Qed.

Lemma get_current_user_unknown_subject_witness :
  fst (get_current_user sample_ext
         (jwt_encode sample_ext (mkClaims (Some "carol") (Some 87400))
                     SECRET_KEY)
         sample_world)
    = Raise (HTTPException 401 "User not found") /\
  db (snd (get_current_user sample_ext
             (jwt_encode sample_ext (mkClaims (Some "carol") (Some 87400))
                         SECRET_KEY)
             sample_world)) = db sample_world.
Proof.
  apply (get_current_user_unknown_subject sample_ext
           (jwt_encode sample_ext (mkClaims (Some "carol") (Some 87400))
                       SECRET_KEY)
           sample_world (mkClaims (Some "carol") (Some 87400)));
    reflexivity.
Defined.

(** ** Predictions: failure, history and keys *)

(** What the insert of a prediction does: it is refused and changes
    nothing, or it appends the row under a key no stored row has. *)
Lemma insert_prediction_cases (ext : Collaborators) (user_id0 : Z)
    (name : NameCell) (loan_data : Features) (prediction0 : Z)
    (probability0 : Q) (prediction_type0 : string)
    (batch_id0 : option string) (now : Z) (d : Database) :
  (exists e,
      insert_prediction ext user_id0 name loan_data prediction0 probability0
                        prediction_type0 batch_id0 now d = (Raise e, d))
  \/
  (exists n f p q t b,
      prediction_columns ext name loan_data prediction0 probability0
                         prediction_type0 batch_id0 = Ok (n, f, p, q, t, b) /\
      is_user user_id0 d = true /\
      existsb (fun r => p_id r =? predictions_auto_increment d)
              (predictions d) = false /\
      insert_prediction ext user_id0 name loan_data prediction0 probability0
                        prediction_type0 batch_id0 now d
      = (Ok (predictions_auto_increment d),
         mkDatabase (users d)
           (predictions d
              ++ [mkPrediction (predictions_auto_increment d) user_id0
                               n f p q t b now])
           (users_auto_increment d) (predictions_auto_increment d + 1))).
Proof.
  unfold insert_prediction, is_user.
  destruct (prediction_columns ext name loan_data prediction0 probability0
                               prediction_type0 batch_id0)
    as [[[[[[n f] p] q] t] b]|e]; [|eauto].
  destruct (existsb (fun u => u_id u =? user_id0) (users d)); cbn [negb];
    [|eauto].
  destruct (existsb (fun r => p_id r =? predictions_auto_increment d)
                    (predictions d)) eqn:Hkey; [eauto|].
  right. exists n, f, p, q, t, b. auto.
Qed.

(** What one [create_prediction] does, whatever it is given: it raises and
    leaves both tables as they were, or it appends one row and returns
    that row. *)
Lemma create_prediction_cases (ext : Collaborators) (user_id0 : Z)
    (name : NameCell) (loan_data : Features) (prediction0 : Z)
    (probability0 : Q) (prediction_type0 : string)
    (batch_id0 : option string) (w : World) :
  let run := create_prediction ext user_id0 name loan_data prediction0
                               probability0 prediction_type0 batch_id0 w in
  (exists e,
      fst run = Raise e /\
      users (db (snd run)) = users (db w) /\
      predictions (db (snd run)) = predictions (db w))
  \/
  (exists row,
      fst run = Ok (Some row) /\
      users (db (snd run)) = users (db w) /\
      predictions (db (snd run)) = predictions (db w) ++ [row] /\
      prediction_columns ext name loan_data prediction0 probability0
                         prediction_type0 batch_id0
        = Ok (p_name row, p_features row, prediction row, probability row,
              prediction_type row, batch_id row) /\
      user_id row = user_id0 /\
      created_at row = clock w /\
      existsb (fun r => p_id r =? p_id row) (predictions (db w)) = false /\
      is_user user_id0 (db w) = true /\
      available (snd run) = true /\
      clock (snd run) = clock w /\
      draws (snd run) = draws w).
Proof.
  intros run. subst run. unfold create_prediction.
  match goal with
  | |- (exists e, fst (get_db ?body w) = _ /\ _) \/ _ =>
      destruct (available w) eqn:Hav;
      [destruct (get_db_run body w Hav) as (w' & Hrun & Hav' & Hc & Hd & Hdb)
      |destruct (get_db_unavailable w Hav) as (e & w' & Hfail);
       pose proof (get_db_raise_keeps_tables body w e) as Hkeep]
  end.
  - rewrite Hrun. cbn [fst snd]. unfold cbind in *.
    destruct (insert_prediction_cases ext user_id0 name loan_data prediction0
                probability0 prediction_type0 batch_id0 (clock w) (db w))
      as [(e & Hins)|(n & f & p & q & t & b & Hcols & Huser & Hkey & Hins)];
      rewrite Hins in Hdb |- *.
    + left. exists e. rewrite Hdb. cbn. auto.
    + right. unfold select_prediction, cret in Hdb |- *.
      cbv beta iota in Hdb |- *. cbn [predictions] in Hdb |- *.
      rewrite find_after_fresh;
        try exact Hkey; try (cbn; apply Z.eqb_refl).
      eexists. rewrite Hdb. cbn. repeat split; auto.
  - left. exists e. rewrite Hfail in *. cbn [fst snd] in *.
    destruct (Hkeep eq_refl) as (Hu & Hp). auto.
Qed.

(** X11. [predict_single] stores all or nothing: whenever it raises,
    whatever the reason (no connection, a value the table refuses, an
    owner that is gone), both tables are as they were before the call. *)
Theorem predict_single_raises_without_writing :
  forall (ext : Collaborators) (data : LoanData) (current_user : User)
         (w : World) (e : exn),
    fst (predict_single ext data current_user w) = Raise e ->
    users (db (snd (predict_single ext data current_user w)))
      = users (db w) /\
    predictions (db (snd (predict_single ext data current_user w)))
      = predictions (db w).
Proof.
  intros ext data current_user w e. unfold predict_single, sbind.
  pose proof (create_prediction_cases ext (u_id current_user)
                (Text (name data)) (features data)
                (pipeline_predict ext (features data))
                (pipeline_predict_proba ext (features data))
                "single" None w) as Hcases.
  cbv zeta in Hcases.
  destruct (create_prediction ext (u_id current_user) (Text (name data))
              (features data) (pipeline_predict ext (features data))
              (pipeline_predict_proba ext (features data)) "single" None w)
    as [[stored|e'] w'].
  - destruct Hcases as [(e0 & Hres & _)|(row & Hres & _)];
      cbn in Hres; [discriminate|].
    injection Hres as ->. cbn. discriminate.
  - destruct Hcases as [(e0 & _ & Hu & Hp)|(row & Hres & _)];
      cbn in *; [auto|discriminate].
Qed.

Lemma predict_single_raises_without_writing_witness :
  users (db (snd (predict_single sample_ext sample_loan bob sample_world)))
    = users (db sample_world) /\
  predictions (db (snd (predict_single sample_ext sample_loan bob
                                       sample_world)))
    = predictions (db sample_world).
Proof.
  apply (predict_single_raises_without_writing sample_ext sample_loan bob
           sample_world
           (IntegrityError "a foreign key constraint fails")).
  reflexivity.
Defined.

Lemma newest_goes_first (row : Prediction) (l : list Prediction) :
  Forall (fun x => created_at x < created_at row) l ->
  order_by_created_at_desc (l ++ [row]) = row :: order_by_created_at_desc l.
Proof.
  unfold order_by_created_at_desc. rewrite fold_right_app. cbn.
  induction 1 as [|x l Hx _ IH]; cbn; [reflexivity|].
  rewrite IH. cbn.
  destruct (Z.ltb_spec (created_at row) (created_at x)); [lia|reflexivity].
Qed.

(** What a [predict_single] that returns has stored. *)
Lemma predict_single_ok_inv (ext : Collaborators) (data : LoanData)
    (current_user : User) (w w' : World) (resp : PredictionResponse) :
  predict_single ext data current_user w = (Ok resp, w') ->
  exists row,
    resp = mkPredictionResponse (p_id row) (prediction row)
                                (probability row) (created_at row) /\
    predictions (db w') = predictions (db w) ++ [row] /\
    users (db w') = users (db w) /\
    prediction_columns ext (Text (name data)) (features data)
      (pipeline_predict ext (features data))
      (pipeline_predict_proba ext (features data)) "single" None
      = Ok (p_name row, p_features row, prediction row, probability row,
            prediction_type row, batch_id row) /\
    user_id row = u_id current_user /\
    created_at row = clock w /\
    existsb (fun r => p_id r =? p_id row) (predictions (db w)) = false /\
    available w' = true.
Proof.
  unfold predict_single, sbind.
  pose proof (create_prediction_cases ext (u_id current_user)
                (Text (name data)) (features data)
                (pipeline_predict ext (features data))
                (pipeline_predict_proba ext (features data))
                "single" None w) as Hcases.
  cbv zeta in Hcases.
  destruct (create_prediction ext (u_id current_user) (Text (name data))
              (features data) (pipeline_predict ext (features data))
              (pipeline_predict_proba ext (features data)) "single" None w)
    as [[stored|e'] w1]; [|discriminate].
  destruct Hcases as [(e0 & Hres & _)
                     |(row & Hres & Hu & Hp & Hcols & Hown & Hat & Hkey & _
                       & Hav & _)];
    cbn in *; [discriminate|].
  injection Hres as ->. cbn. intros H. injection H as <- <-.
  exists row. repeat split; auto.
Qed.

(** X12. The record of a [predict_single] that returned is the first of
    the user's history afterwards, followed by the history as it was,
    provided the user's earlier records are older than the server's clock
    at the call. *)
Theorem predict_single_first_in_history :
  forall (ext : Collaborators) (data : LoanData) (current_user : User)
         (w w' : World) (resp : PredictionResponse),
    predict_single ext data current_user w = (Ok resp, w') ->
    Forall (fun r => user_id r = u_id current_user -> created_at r < clock w)
           (predictions (db w)) ->
    exists (row : Prediction) (before : list Prediction),
      fst (get_history current_user w) = Ok before /\
      fst (get_history current_user w') = Ok (row :: before) /\
      p_id row = r_id resp /\
      prediction row = r_prediction resp /\
      probability row = r_probability resp /\
      created_at row = r_created_at resp.
Proof.
  intros ext data current_user w w' resp Hrun Holder.
  assert (Hav : available w = true).
  { unfold predict_single, sbind, create_prediction in Hrun.
    match type of Hrun with
    | context [get_db ?body w] =>
        destruct (fst (get_db body w)) as [a|e] eqn:Hres;
        [exact (get_db_ok_available body w a Hres)
        |destruct (get_db body w) as [r w1]; cbn in Hres; subst r;
         discriminate]
    end. }
  destruct (predict_single_ok_inv ext data current_user w w' resp Hrun)
    as (row & -> & Hrows & _ & _ & Hown & Hat & _ & Hav').
  destruct (get_db_read w Hav) as (w1 & Hread & _).
  destruct (get_db_read w' Hav') as (w2 & Hread' & _).
  exists row. eexists.
  unfold get_history, get_user_predictions.
  rewrite Hread, Hread', Hrows. cbn [fst r_id r_prediction r_probability
                                     r_created_at].
  split; [reflexivity|]. split; [|auto].
  rewrite filter_app. cbn [filter]. rewrite Hown, Z.eqb_refl.
  rewrite newest_goes_first; [reflexivity|].
  rewrite Hat. apply Forall_forall. intros r Hin.
  apply filter_In in Hin. destruct Hin as (Hin & Hmine).
  apply Z.eqb_eq in Hmine.
  rewrite Forall_forall in Holder. auto.
Qed.

Lemma predict_single_first_in_history_witness :
  exists (row : Prediction) (before : list Prediction),
    fst (get_history alice busy_world) = Ok before /\
    fst (get_history alice
           (snd (predict_single sample_ext sample_loan alice busy_world)))
      = Ok (row :: before) /\
    p_id row = 6 /\
    prediction row = 1 /\
    probability row = 156 # 10000 /\
    created_at row = 1000.
Proof.
  apply (predict_single_first_in_history sample_ext sample_loan alice
           busy_world
           (snd (predict_single sample_ext sample_loan alice busy_world))
           (mkPredictionResponse 6 1 (156 # 10000) 1000)).
  - reflexivity.
  - repeat constructor; simpl; lia.
Defined.

(** X13. The key that [predict_single] returns leads back to the stored
    record: [get_prediction_by_id] on it returns the row of this request,
    owned by the caller, of type "single", without a batch, under the
    given name, and with the decision and probability of the response. *)
Theorem predict_single_then_get_prediction_by_id :
  forall (ext : Collaborators) (data : LoanData) (current_user : User)
         (w w' : World) (resp : PredictionResponse),
    predict_single ext data current_user w = (Ok resp, w') ->
    exists row : Prediction,
      fst (get_prediction_by_id (r_id resp) w') = Ok (Some row) /\
      p_id row = r_id resp /\
      user_id row = u_id current_user /\
      p_name row = Some (name data) /\
      prediction row = r_prediction resp /\
      probability row = r_probability resp /\
      prediction_type row = "single" /\
      batch_id row = None.
Proof.
  intros ext data current_user w w' resp Hrun.
  destruct (predict_single_ok_inv ext data current_user w w' resp Hrun)
    as (row & -> & Hrows & _ & Hcols & Hown & _ & Hkey & Hav').
  apply prediction_columns_inv in Hcols.
  destruct Hcols as (Hname & _ & _ & _ & Htype & Hbatch).
  exists row. cbn [r_id r_prediction r_probability].
  unfold get_prediction_by_id.
  match goal with
  | |- fst (get_db ?body w') = _ /\ _ =>
      destruct (get_db_run body w' Hav') as (w2 & Hget & _)
  end.
  rewrite Hget. unfold select_prediction. cbn [fst]. rewrite Hrows.
  rewrite find_after_fresh; [|exact Hkey|apply Z.eqb_refl].
  repeat split; auto.
Qed.

Lemma predict_single_then_get_prediction_by_id_witness :
  exists row : Prediction,
    fst (get_prediction_by_id 6
           (snd (predict_single sample_ext sample_loan alice busy_world)))
      = Ok (Some row) /\
    p_id row = 6 /\
    user_id row = u_id alice /\
    p_name row = Some (name sample_loan) /\
    prediction row = 1 /\
    probability row = 156 # 10000 /\
    prediction_type row = "single" /\
    batch_id row = None.
Proof.
  apply (predict_single_then_get_prediction_by_id sample_ext sample_loan
           alice busy_world
           (snd (predict_single sample_ext sample_loan alice busy_world))
           (mkPredictionResponse 6 1 (156 # 10000) 1000)).
  reflexivity.
Defined.

(** ** Batches: what a response stands for, and what a failure leaves *)

Lemma get_db_keeps_available {A : Type} (body : Cursor A) (w : World) :
  available w = true -> available (snd (get_db body w)) = true.
Proof.
  intros Hav. destruct (get_db_run body w Hav) as (w' & Hrun & Hav' & _).
  now rewrite Hrun.
Qed.

(** What a loop that returns has stored: one row per input, in order. *)
Lemma save_all_ok_inv (ext : Collaborators) (user_id0 : Z)
    (batch_id0 : string) (todo : list (NameCell * (Features * (Z * Q)))) :
  forall (done entries : list BatchEntry) (w w' : World),
    save_all ext user_id0 batch_id0 todo done w = (Ok entries, w') ->
    entries = done ++ map entry_of_input todo /\
    users (db w') = users (db w) /\
    (available w = true -> available w' = true) /\
    exists new : list Prediction,
      predictions (db w') = predictions (db w) ++ new /\
      Forall2 (persisted_as user_id0 batch_id0 (clock w)) todo new.
Proof.
  induction todo as [|[n [f [pred prob]]] rest IH];
    intros done entries w w' Hrun.
  - cbn in Hrun. injection Hrun as <- <-. rewrite app_nil_r.
    repeat split; auto. exists []. rewrite app_nil_r. split; constructor.
  - cbn [save_all] in Hrun. unfold sbind at 1 in Hrun.
    pose proof (create_prediction_cases ext user_id0 n f pred prob "batch"
                  (Some batch_id0) w) as Hcases.
    cbv zeta in Hcases.
    destruct (create_prediction ext user_id0 n f pred prob "batch"
                                (Some batch_id0) w)
      as [[stored|e] w1]; [|discriminate].
    destruct Hcases as [(e0 & Hres & _)
                       |(row & _ & Hu & Hp & Hcols & Hown & Hat & _ & _
                         & Hav1 & Hc1 & _)];
      cbn [fst snd] in *; [discriminate|].
    destruct (IH _ _ _ _ Hrun) as (-> & Hu' & Hav' & new & Hp' & Hall).
    rewrite <- app_assoc. cbn [app map entry_of_input].
    split; [reflexivity|]. split; [congruence|]. split; [auto|].
    exists (row :: new). split.
    + rewrite Hp', Hp, <- app_assoc. reflexivity.
    + constructor; [|rewrite <- Hc1; exact Hall].
      apply prediction_columns_inv in Hcols.
      destruct Hcols as (Hname & Hf & Hpred & Hprob & Htype & Hbatch).
      cbn. repeat split; auto.
Qed.

(** What a [predict_batch] that returns has answered and stored. *)
Lemma predict_batch_ok_inv (ext : Collaborators) (df : DataFrame)
    (current_user : User) (w w' : World) (resp : BatchResponse) :
  predict_batch ext df current_user w = (Ok resp, w') ->
  resp = mkBatchResponse (uuid_of_draw ext (draws w))
                         (List.length (df_for_prediction df))
                         (map entry_of_input (batch_inputs ext df)) /\
  (available w = true -> available w' = true) /\
  exists new : list Prediction,
    predictions (db w') = predictions (db w) ++ new /\
    Forall2 (persisted_as (u_id current_user) (uuid_of_draw ext (draws w))
                          (clock w))
            (batch_inputs ext df) new.
Proof.
  unfold predict_batch, sbind, uuid4. fold (batch_inputs ext df).
  destruct (save_all ext (u_id current_user) (uuid_of_draw ext (draws w))
                     (batch_inputs ext df) [] (set_draws w (S (draws w))))
    as [[entries|e] w1] eqn:Hloop; [|discriminate].
  cbn. intros H. injection H as <- <-.
  apply save_all_ok_inv in Hloop.
  destruct Hloop as (-> & _ & Hav & new & Hrows & Hall).
  cbn [app]. rewrite length_map, batch_inputs_length.
  split; [reflexivity|]. split.
  - intros Hw. apply Hav. now rewrite available_set_draws.
  - exists new. auto.
Qed.

(** X14. Whenever [predict_batch] returns a response, the response
    counts the rows of the upload and lists, row by row and in input
    order, the decision and the probability exactly as the scorer gave
    them, while the table has gained one record per entry, in the same
    order, that holds the same decision and the probability rounded to
    four decimals. *)
Theorem predict_batch_response_and_records :
  forall (ext : Collaborators) (df : DataFrame) (current_user : User)
         (w w' : World) (resp : BatchResponse),
    predict_batch ext df current_user w = (Ok resp, w') ->
    count resp = List.length (df_for_prediction df) /\
    map e_name (b_predictions resp) = names df /\
    map e_prediction (b_predictions resp)
      = map (pipeline_predict ext) (df_for_prediction df) /\
    map e_probability (b_predictions resp)
      = map (pipeline_predict_proba ext) (df_for_prediction df) /\
    exists new : list Prediction,
      predictions (db w') = predictions (db w) ++ new /\
      Forall2 (fun e r => prediction r = e_prediction e /\
                          probability r = four_decimals (e_probability e) /\
                          p_name r = stored_name (e_name e) /\
                          batch_id r = Some (b_batch_id resp))
              (b_predictions resp) new.
Proof.
  intros ext df current_user w w' resp Hrun.
  destruct (predict_batch_ok_inv ext df current_user w w' resp Hrun)
    as (-> & _ & new & Hrows & Hall).
  cbn [count b_predictions b_batch_id].
  split; [reflexivity|].
  split; [rewrite entry_names; apply batch_inputs_names|].
  assert (Hshape :
    forall (l1 : list NameCell) (l2 : list Features) (g : Features -> Z)
           (h : Features -> Q),
      List.length l1 = List.length l2 ->
      map e_prediction
          (map entry_of_input
               (combine l1 (combine l2 (combine (map g l2) (map h l2)))))
        = map g l2 /\
      map e_probability
          (map entry_of_input
               (combine l1 (combine l2 (combine (map g l2) (map h l2)))))
        = map h l2).
  { intros l1 l2 g h. revert l1.
    induction l2 as [|x l2 IH]; intros [|c l1]; cbn; try discriminate; auto.
    intros H. injection H as H. destruct (IH l1 H) as (-> & ->). auto. }
  destruct (Hshape (names df) (df_for_prediction df) (pipeline_predict ext)
                   (pipeline_predict_proba ext)) as (Hpred & Hprob).
  { destruct df as [rows|rows]; cbn;
      rewrite ?length_map, ?repeat_length; reflexivity. }
  fold (batch_inputs ext df) in Hpred, Hprob.
  split; [exact Hpred|]. split; [exact Hprob|].
  exists new. split; [exact Hrows|].
  clear Hpred Hprob Hshape Hrows Hrun.
  induction Hall as [|[n [f [pred prob]]] r inputs new Hrow _ IH]; cbn.
  - constructor.
  - constructor; [|exact IH].
    destruct Hrow as (_ & Hn & _ & Hp & Hq & _ & Hb & _). auto.
Qed.

Lemma predict_batch_response_and_records_witness :
  let df := FrameWithName [(Text "Bob", sample_features);
                           (NaN, sample_features)] in
  let resp := mkBatchResponse (tally 1) 2
                [mkBatchEntry (Text "Bob") 1 (1 # 64);
                 mkBatchEntry NaN 1 (1 # 64)] in
  count resp = List.length (df_for_prediction df) /\
  map e_name (b_predictions resp) = names df /\
  map e_prediction (b_predictions resp)
    = map (pipeline_predict sample_ext) (df_for_prediction df) /\
  map e_probability (b_predictions resp)
    = map (pipeline_predict_proba sample_ext) (df_for_prediction df) /\
  exists new : list Prediction,
    predictions
      (db (snd (predict_batch sample_ext df alice busy_world)))
      = predictions (db busy_world) ++ new /\
    Forall2 (fun e r => prediction r = e_prediction e /\
                        probability r = four_decimals (e_probability e) /\
                        p_name r = stored_name (e_name e) /\
                        batch_id r = Some (b_batch_id resp))
            (b_predictions resp) new.
Proof.
  apply (predict_batch_response_and_records sample_ext
           (FrameWithName [(Text "Bob", sample_features);
                           (NaN, sample_features)])
           alice busy_world).
  reflexivity.
Defined.

Lemma save_all_app (ext : Collaborators) (user_id0 : Z) (batch_id0 : string)
    (pre rest : list (NameCell * (Features * (Z * Q)))) :
  forall (done : list BatchEntry) (w : World),
    save_all ext user_id0 batch_id0 (pre ++ rest) done w
    = match save_all ext user_id0 batch_id0 pre done w with
      | (Ok done1, w1) => save_all ext user_id0 batch_id0 rest done1 w1
      | (Raise e, w1) => (Raise e, w1)
      end.
Proof.
  induction pre as [|[n [f [pred prob]]] pre IH]; intros done w.
  - reflexivity.
  - cbn [app save_all]. unfold sbind.
    destruct (create_prediction ext user_id0 n f pred prob "batch"
                                (Some batch_id0) w) as [[stored|e] w1];
      [apply IH|reflexivity].
Qed.

(** X15. A batch stops at the first row the table refuses: the rows
    before it are stored, each in its own committed transaction and in
    input order, the refused row and the rows after it are not, and the
    handler raises the row's error instead of returning a response. *)
Theorem predict_batch_stops_at_refused_row :
  forall (ext : Collaborators) (df : DataFrame) (current_user : User)
         (w : World)
         (pre post : list (NameCell * (Features * (Z * Q))))
         (n : NameCell) (f : Features) (pred : Z) (prob : Q) (e : exn),
    available w = true ->
    is_user (u_id current_user) (db w) = true ->
    ids_below_counter (db w) ->
    batch_inputs ext df = pre ++ (n, (f, (pred, prob))) :: post ->
    forallb (accepted ext (uuid_of_draw ext (draws w))) pre = true ->
    prediction_columns ext n f pred prob "batch"
                       (Some (uuid_of_draw ext (draws w))) = Raise e ->
    exists (new : list Prediction) (w' : World),
      predict_batch ext df current_user w = (Raise e, w') /\
      predictions (db w') = predictions (db w) ++ new /\
      Forall2 (persisted_as (u_id current_user) (uuid_of_draw ext (draws w))
                            (clock w)) pre new /\
      users (db w') = users (db w).
Proof.
  intros ext df current_user w pre post n f pred prob e
         Hav Huser Hids Hsplit Hpre Hbad.
  destruct (save_all_accepted ext (u_id current_user)
              (uuid_of_draw ext (draws w)) pre []
              (set_draws w (S (draws w))))
    as (new & w1 & Hloop & Hrows & Hall & Husers & Hav1 & Hc1 & _ & _); auto.
  { now rewrite available_set_draws. }
  cbn [db set_draws clock] in Hrows, Hall, Husers, Hc1.
  unfold predict_batch, sbind, uuid4. fold (batch_inputs ext df).
  rewrite Hsplit, save_all_app, Hloop.
  cbn [save_all]. unfold sbind at 1. unfold create_prediction.
  match goal with
  | |- context [get_db ?body w1] =>
      destruct (get_db_run body w1 Hav1) as (w' & Hrun & _ & _ & _ & Hdb);
      assert (Hbody : body (clock w1) (db w1) = (Raise e, db w1))
  end.
  { unfold cbind, insert_prediction. now rewrite Hbad. }
  rewrite Hbody in Hrun, Hdb. cbn [fst] in Hrun. rewrite Hrun.
  exists new, w'. rewrite Hdb. cbn. repeat split; auto.
Qed.

Lemma predict_batch_stops_at_refused_row_witness :
  exists (new : list Prediction) (w' : World),
    predict_batch bare_nan_ext
      (FrameWithName [(Text "Bob", sample_features); (NaN, sample_features);
                      (Text "Eve", sample_features)])
      alice busy_world
      = (Raise (ProgrammingError "Unknown column 'nan' in 'field list'"), w')
    /\
    predictions (db w') = predictions (db busy_world) ++ new /\
    Forall2 (persisted_as (u_id alice) (tally 1) (clock busy_world))
            [(Text "Bob", (sample_features, (1, 1 # 64)))] new /\
    users (db w') = users (db busy_world).
Proof.
  apply (predict_batch_stops_at_refused_row bare_nan_ext
           (FrameWithName [(Text "Bob", sample_features);
                           (NaN, sample_features);
                           (Text "Eve", sample_features)])
           alice busy_world
           [(Text "Bob", (sample_features, (1, 1 # 64)))]
           [(Text "Eve", (sample_features, (1, 1 # 64)))]
           NaN sample_features 1 (1 # 64)).
  - reflexivity.
  - reflexivity.
  - repeat constructor.
  - reflexivity.
  - vm_compute. reflexivity.
  - reflexivity.
Defined.

Lemma other_rows_kept (user_id0 other : Z) (l new : list Prediction) :
  user_id0 <> other ->
  Forall (fun r => user_id r = user_id0) new ->
  filter (fun r => user_id r =? other) (l ++ new)
  = filter (fun r => user_id r =? other) l.
Proof.
  intros Hneq Hall. rewrite filter_app.
  replace (filter (fun r => user_id r =? other) new) with (@nil Prediction);
    [now rewrite app_nil_r|].
  induction Hall as [|r new Hr _ IH]; cbn; [reflexivity|].
  rewrite <- IH. replace (user_id r =? other) with false; [reflexivity|].
  symmetry. apply Z.eqb_neq. congruence.
Qed.

(** Whatever a loop does, every row it stores belongs to its user, and
    a handle stays available. *)
Lemma save_all_rows_owned (ext : Collaborators) (user_id0 : Z)
    (batch_id0 : string) (todo : list (NameCell * (Features * (Z * Q)))) :
  forall (done : list BatchEntry) (w : World),
    available w = true ->
    let w' := snd (save_all ext user_id0 batch_id0 todo done w) in
    available w' = true /\
    exists new : list Prediction,
      predictions (db w') = predictions (db w) ++ new /\
      Forall (fun r => user_id r = user_id0) new.
Proof.
  induction todo as [|[n [f [pred prob]]] rest IH]; intros done w Hav.
  - cbn. split; [exact Hav|]. exists []. rewrite app_nil_r. auto.
  - cbv zeta. cbn [save_all]. unfold sbind.
    pose proof (create_prediction_cases ext user_id0 n f pred prob "batch"
                  (Some batch_id0) w) as Hcases.
    pose proof (get_db_keeps_available
                  (cbind (insert_prediction ext user_id0 n f pred prob
                            "batch" (Some batch_id0))
                         (fun prediction_id =>
                            cbind (select_prediction prediction_id)
                                  (fun row => cret row)))
                  w Hav) as Hav1.
    fold (create_prediction ext user_id0 n f pred prob "batch"
                            (Some batch_id0) w) in Hav1.
    cbv zeta in Hcases.
    destruct (create_prediction ext user_id0 n f pred prob "batch"
                                (Some batch_id0) w) as [[stored|e] w1].
    + destruct Hcases as [(e0 & Hres & _)
                         |(row & _ & _ & Hp & _ & Hown & _)];
        cbn [fst snd] in *; [discriminate|].
      destruct (IH (done ++ [mkBatchEntry n pred prob]) w1 Hav1)
        as (Hav' & new & Hp' & Hall).
      split; [exact Hav'|].
      exists (row :: new). split.
      * rewrite Hp', Hp, <- app_assoc. reflexivity.
      * constructor; assumption.
    + destruct Hcases as [(e0 & _ & _ & Hp)|(row & Hres & _)];
        cbn [fst snd] in *; [|discriminate].
      split; [exact Hav1|]. exists []. rewrite app_nil_r. auto.
Qed.

(** X16. No prediction request of one user changes what another user's
    history returns, whether the request is single or a batch and whether
    it returns or raises. *)
Theorem predictions_keep_other_histories :
  forall (ext : Collaborators) (requester other : User) (w : World),
    u_id requester <> u_id other ->
    available w = true ->
    (forall data : LoanData,
        fst (get_history other
               (snd (predict_single ext data requester w)))
        = fst (get_history other w)) /\
    (forall df : DataFrame,
        fst (get_history other
               (snd (predict_batch ext df requester w)))
        = fst (get_history other w)).
Proof.
  intros ext requester other w Hneq Hav.
  destruct (get_db_read w Hav) as (w0 & Hread0 & _).
  split.
  - intros data. unfold predict_single, sbind.
    pose proof (create_prediction_cases ext (u_id requester)
                  (Text (name data)) (features data)
                  (pipeline_predict ext (features data))
                  (pipeline_predict_proba ext (features data))
                  "single" None w) as Hcases.
    pose proof (get_db_keeps_available
                  (cbind (insert_prediction ext (u_id requester)
                            (Text (name data)) (features data)
                            (pipeline_predict ext (features data))
                            (pipeline_predict_proba ext (features data))
                            "single" None)
                         (fun prediction_id =>
                            cbind (select_prediction prediction_id)
                                  (fun row => cret row)))
                  w Hav) as Hav1.
    fold (create_prediction ext (u_id requester) (Text (name data))
            (features data) (pipeline_predict ext (features data))
            (pipeline_predict_proba ext (features data)) "single" None w)
      in Hav1.
    cbv zeta in Hcases.
    destruct (create_prediction ext (u_id requester) (Text (name data))
                (features data) (pipeline_predict ext (features data))
                (pipeline_predict_proba ext (features data)) "single" None w)
      as [[stored|e] w1]; cbn [fst snd] in *.
    + destruct (get_db_read w1 Hav1) as (w2 & Hread1 & _).
      destruct Hcases as [(e0 & Hres & _)
                         |(row & _ & _ & Hp & _ & Hown & _)];
        [discriminate|].
      destruct stored; unfold sret, sraise; cbn [snd];
        unfold get_history, get_user_predictions;
        rewrite Hread0, Hread1, Hp; cbn [fst];
        rewrite (other_rows_kept (u_id requester)); auto.
    + destruct (get_db_read w1 Hav1) as (w2 & Hread1 & _).
      unfold get_history, get_user_predictions. rewrite Hread0, Hread1.
      destruct Hcases as [(e0 & _ & _ & Hp)|(row & Hres & _)];
        [|discriminate].
      now rewrite Hp.
  - intros df. unfold predict_batch, sbind, uuid4.
    fold (batch_inputs ext df).
    assert (Hav1 : available (set_draws w (S (draws w))) = true)
      by now rewrite available_set_draws.
    pose proof (save_all_rows_owned ext (u_id requester)
                  (uuid_of_draw ext (draws w)) (batch_inputs ext df) []
                  (set_draws w (S (draws w))) Hav1) as Hloop.
    cbv zeta in Hloop.
    destruct (save_all ext (u_id requester) (uuid_of_draw ext (draws w))
                       (batch_inputs ext df) [] (set_draws w (S (draws w))))
      as [[entries|e] w1]; cbn [fst snd sret] in *;
      destruct Hloop as (Hav' & new & Hp & Hall);
      destruct (get_db_read w1 Hav') as (w2 & Hread1 & _);
      unfold get_history, get_user_predictions;
      rewrite Hread0, Hread1, Hp; cbn [fst];
      rewrite (other_rows_kept (u_id requester)); auto.
Qed.

Lemma predictions_keep_other_histories_witness :
  (forall data : LoanData,
      fst (get_history bob (snd (predict_single sample_ext data alice
                                                busy_world)))
      = fst (get_history bob busy_world)) /\
  (forall df : DataFrame,
      fst (get_history bob (snd (predict_batch sample_ext df alice
                                               busy_world)))
      = fst (get_history bob busy_world)).
Proof.
  apply (predictions_keep_other_histories sample_ext alice bob busy_world).
  - simpl. lia.
  - reflexivity.
Defined.

(** ** Reading a batch back *)

Lemma insert_asc_perm (r : Prediction) (l : list Prediction) :
  Permutation (insert_asc r l) (r :: l).
Proof.
  induction l as [|x l IH]; cbn.
  - apply Permutation_refl.
  - destruct (created_at r <? created_at x).
    + apply Permutation_refl.
    + eapply perm_trans; [apply perm_skip, IH|apply perm_swap].
Qed.

Lemma insert_asc_sorted (r : Prediction) (l : list Prediction) :
  StronglySorted older_or_equal l ->
  StronglySorted older_or_equal (insert_asc r l).
Proof.
  induction 1 as [|x l Hsorted IH Hall]; cbn.
  - constructor; constructor.
  - destruct (Z.ltb_spec (created_at r) (created_at x)) as [Hlt|Hge].
    + constructor; [constructor; assumption|].
      constructor; [unfold older_or_equal; lia|].
      eapply Forall_impl; [|exact Hall].
      unfold older_or_equal. intros y Hy. lia.
    + constructor; [exact IH|].
      eapply Permutation_Forall;
        [apply Permutation_sym, insert_asc_perm|].
      constructor; [exact Hge|exact Hall].
Qed.

Lemma order_by_created_at_perm (l : list Prediction) :
  Permutation (order_by_created_at l) l.
Proof.
  induction l as [|x l IH]; cbn.
  - constructor.
  - eapply perm_trans; [apply insert_asc_perm|now apply perm_skip].
Qed.

Lemma order_by_created_at_sorted (l : list Prediction) :
  StronglySorted older_or_equal (order_by_created_at l).
Proof.
  induction l as [|x l IH]; cbn.
  - constructor.
  - now apply insert_asc_sorted.
Qed.

Lemma filter_keeps_none {A : Type} (f : A -> bool) (l : list A) :
  Forall (fun a => f a = false) l -> filter f l = [].
Proof.
  induction 1 as [|a l Ha _ IH]; cbn; [reflexivity|now rewrite Ha].
Qed.

Lemma filter_keeps_all {A : Type} (f : A -> bool) (l : list A) :
  Forall (fun a => f a = true) l -> filter f l = l.
Proof.
  induction 1 as [|a l Ha _ IH]; cbn; [reflexivity|now rewrite Ha, IH].
Qed.

(** X17. The identifier in the response of a batch leads back to the
    batch: [get_batch_predictions] on it returns the records this request
    stored, all of them and no other, oldest first, as many as the
    response counts, provided no earlier record carries an identifier the
    server takes for the same. *)
Theorem predict_batch_then_get_batch_predictions :
  forall (ext : Collaborators) (df : DataFrame) (current_user : User)
         (w w' : World) (resp : BatchResponse),
    predict_batch ext df current_user w = (Ok resp, w') ->
    available w = true ->
    Forall (fun r => in_batch ext (uuid_of_draw ext (draws w)) r = false)
           (predictions (db w)) ->
    exists new rows : list Prediction,
      predictions (db w') = predictions (db w) ++ new /\
      fst (get_batch_predictions ext (b_batch_id resp) w') = Ok rows /\
      Permutation rows new /\
      List.length rows = count resp /\
      StronglySorted older_or_equal rows.
Proof.
  intros ext df current_user w w' resp Hrun Hav Hfresh.
  destruct (predict_batch_ok_inv ext df current_user w w' resp Hrun)
    as (-> & Hav' & new & Hrows & Hall).
  specialize (Hav' Hav).
  destruct (persisted_as_batch _ _ _ _ _ Hall) as (Hbatch & _).
  pose proof (Forall2_length Hall) as Hlen.
  rewrite batch_inputs_length in Hlen.
  destruct (get_db_read w' Hav') as (w2 & Hread & _).
  exists new. eexists. split; [exact Hrows|].
  unfold get_batch_predictions. rewrite Hread, Hrows. cbn [fst b_batch_id].
  split; [reflexivity|].
  rewrite filter_app, (filter_keeps_none _ _ Hfresh), filter_keeps_all.
  - cbn [app count]. split; [apply order_by_created_at_perm|].
    split; [|apply order_by_created_at_sorted].
    rewrite (Permutation_length (order_by_created_at_perm new)).
    congruence.
  - eapply Forall_impl; [|exact Hbatch]. cbn. intros r (Hb & _).
    unfold in_batch. rewrite Hb. apply same_text_refl.
Qed.

Lemma predict_batch_then_get_batch_predictions_witness :
  let df := FrameWithName [(Text "Bob", sample_features);
                           (NaN, sample_features)] in
  let resp := mkBatchResponse (tally 1) 2
                [mkBatchEntry (Text "Bob") 1 (1 # 64);
                 mkBatchEntry NaN 1 (1 # 64)] in
  let w' := snd (predict_batch sample_ext df alice busy_world) in
  exists new rows : list Prediction,
    predictions (db w') = predictions (db busy_world) ++ new /\
    fst (get_batch_predictions sample_ext (b_batch_id resp) w') = Ok rows /\
    Permutation rows new /\
    List.length rows = count resp /\
    StronglySorted older_or_equal rows.
Proof.
  apply (predict_batch_then_get_batch_predictions sample_ext
           (FrameWithName [(Text "Bob", sample_features);
                           (NaN, sample_features)])
           alice busy_world).
  - reflexivity.
  - reflexivity.
  - repeat constructor.
Defined.
